(** * Skills curriculum tutorial: reward-shaping wrappers and the selector loop

    A shallow embedding of [tutorials/Skills/agilerl_skills_curriculum.py].

    The script has two halves.  The first defines three reward-shaping
    wrappers ([StabilizeSkill], [CenterSkill], [LandingSkill]) around the
    LunarLander environment; the second trains a selector that picks one of
    the three trained skills every 40 environment steps.

    Numbers.  The Python floats are idealised as rationals ([Q]); equalities
    between rewards are stated up to [Qeq] where the formula is rearranged and
    with Leibniz equality where the code's own expression is meant.  Only
    properties that rounding preserves are stated of rewards: the formula a
    reward is computed by, bounds, and values reached at exact inputs.

    Exceptions.  Python indexing of an empty list, a missing dictionary key
    and the read of an unbound name raise; the embedding returns [Raise]. *)

From Stdlib Require Import QArith Qabs ZArith List Bool Lia Lqa.
From Stdlib Require String.
Import String.StringSyntax.
Delimit Scope string_scope with string.
Import ListNotations.
Open Scope Q_scope.

(** ** Python values shared by both halves *)

Inductive exn : Type :=
| IndexError
| KeyError
| NameError.

Inductive res (A : Type) : Type :=
| Ok (a : A)
| Raise (e : exn).
Arguments Ok {A} a.
Arguments Raise {A} e.

(** The [terminated] and [truncated] components of a step are Python booleans
    when they come from the environment, and the integer [0] or the boolean
    [True] when a wrapper overwrites them. *)
Inductive pyflag : Type :=
| PyBool (b : bool)
| PyInt (n : Z).

(** Python truthiness, as used by [if terminated or truncated]. *)
Definition truthy (f : pyflag) : bool :=
  match f with
  | PyBool b => b
  | PyInt n => negb (n =? 0)%Z
  end.

(** A LunarLander-v2 observation: a float array of shape (8,).  The field
    [obN] is [observation[N]]; indices 0, 1, 4 are x, y and the tilt angle,
    indices 6 and 7 the two leg-contact flags. *)
Record Observation : Type := mkObservation {
  ob0 : Q; ob1 : Q; ob2 : Q; ob3 : Q;
  ob4 : Q; ob5 : Q; ob6 : Q; ob7 : Q
}.

(** [l[-1]]: the last item of a Python list; raises on the empty list. *)
Fixpoint last_item {A : Type} (l : list A) : res A :=
  match l with
  | [] => Raise IndexError
  | [a] => Ok a
  | _ :: t => last_item t
  end.

(** The 5-tuple [(observation, reward, terminated, truncated, info)] that a
    gymnasium step and every [skill_reward] return. *)
Record step_result (Info : Type) : Type := StepResult {
  sr_observation : Observation;
  sr_reward : Q;
  sr_terminated : pyflag;
  sr_truncated : pyflag;
  sr_info : Info
}.
Arguments StepResult {Info} _ _ _ _ _.
Arguments sr_observation {Info} _.
Arguments sr_reward {Info} _.
Arguments sr_terminated {Info} _.
Arguments sr_truncated {Info} _.
Arguments sr_info {Info} _.

(** ** class StabilizeSkill(Skill) *)

Module StabilizeSkill.

(** [self.history = {"x": [], "y": [], "theta": []}] *)
Record History : Type := mkHistory {
  x : list Q;
  y : list Q;
  theta : list Q
}.

Definition empty_history : History := mkHistory [] [] [].

Section Wrapper.
Variable Env : Type.
Variable Info : Type.
(** [self.env.reset()], whose return value the wrapper drops. *)
Variable env_reset : Env -> Env.

Record self : Type := mkSelf {
  env : Env;
  theta_level : Q;
  history : History
}.

(** [__init__] *)
Definition init (e : Env) : self :=
  mkSelf e 0 empty_history.

Definition skill_reward (s : self) (observation : Observation) (reward : Q)
    (terminated truncated : pyflag) (info : Info)
  : res (step_result Info) * self :=
  if truthy terminated || truthy truncated then
    let reward := (-100 # 1) in
    (Ok (StepResult observation reward terminated truncated info),
     mkSelf (env s) (theta_level s) empty_history)
  else
    let reward := 1 in
    let terminated := PyInt 0 in
    let truncated := PyInt 0 in
    let x_ := ob0 observation in
    let y_ := ob1 observation in
    let theta_ := ob4 observation in
    if (length (x (history s)) =? 0)%nat then
      (Ok (StepResult observation reward terminated truncated info),
       mkSelf (env s) (theta_level s)
              (mkHistory (x (history s) ++ [x_])
                         (y (history s) ++ [y_])
                         (theta (history s) ++ [theta_])))
    else
      match last_item (x (history s)) with
      | Raise e => (Raise e, s)
      | Ok x_prev =>
        let reward := reward - (Qabs (x_prev - x_) * 10) ^ 2 in
        match last_item (y (history s)) with
        | Raise e => (Raise e, s)
        | Ok y_prev =>
          let reward := reward - (Qabs (y_prev - y_) * 10) ^ 2 in
          match last_item (theta (history s)) with
          | Raise e => (Raise e, s)
          | Ok theta_prev =>
            let reward := reward - (Qabs (theta_prev - theta_) * 10) ^ 2 in
            let h := mkHistory (x (history s) ++ [x_])
                               (y (history s) ++ [y_])
                               (theta (history s) ++ [theta_]) in
            if (300 <? length (x h))%nat then
              let reward := (10 # 1) in
              let terminated := PyBool true in
              (Ok (StepResult observation reward terminated truncated info),
               mkSelf (env_reset (env s)) (theta_level s) empty_history)
            else
              (Ok (StepResult observation reward terminated truncated info),
               mkSelf (env s) (theta_level s) h)
          end
        end
      end.

End Wrapper.

Arguments mkSelf {Env} _ _ _.
Arguments env {Env} _.
Arguments theta_level {Env} _.
Arguments history {Env} _.
Arguments init {Env} _.
Arguments skill_reward {Env Info} _ _ _ _ _ _ _.

End StabilizeSkill.

(** ** class CenterSkill(Skill) *)

Module CenterSkill.

(** [self.history = {"y": [], "theta": []}] *)
Record History : Type := mkHistory {
  y : list Q;
  theta : list Q
}.

Definition empty_history : History := mkHistory [] [].

Section Wrapper.
Variable Env : Type.
Variable Info : Type.
Variable env_reset : Env -> Env.

Record self : Type := mkSelf {
  env : Env;
  x_center : Q;
  history : History
}.

(** [__init__] *)
Definition init (e : Env) : self :=
  mkSelf e 0 empty_history.

Definition skill_reward (s : self) (observation : Observation) (reward : Q)
    (terminated truncated : pyflag) (info : Info)
  : res (step_result Info) * self :=
  if truthy terminated || truthy truncated then
    let reward := (-1000 # 1) in
    (Ok (StepResult observation reward terminated truncated info),
     mkSelf (env s) (x_center s) empty_history)
  else
    let reward := 1 in
    let terminated := PyInt 0 in
    let truncated := PyInt 0 in
    let x_ := ob0 observation in
    let y_ := ob1 observation in
    let theta_ := ob4 observation in
    if (length (y (history s)) =? 0)%nat then
      (Ok (StepResult observation reward terminated truncated info),
       mkSelf (env s) (x_center s)
              (mkHistory (y (history s) ++ [y_])
                         (theta (history s) ++ [theta_])))
    else
      let reward := reward - Qabs ((x_center s - x_) * 2) ^ 2 in
      match last_item (y (history s)) with
      | Raise e => (Raise e, s)
      | Ok y_prev =>
        let reward := reward - (Qabs (y_prev - y_) * 10) ^ 2 in
        match last_item (theta (history s)) with
        | Raise e => (Raise e, s)
        | Ok theta_prev =>
          let reward := reward - (Qabs (theta_prev - theta_) * 10) ^ 2 in
          let h := mkHistory (y (history s) ++ [y_])
                             (theta (history s) ++ [theta_]) in
          if (300 <? length (y h))%nat then
            let reward := (10 # 1) in
            let terminated := PyBool true in
            (Ok (StepResult observation reward terminated truncated info),
             mkSelf (env_reset (env s)) (x_center s) empty_history)
          else
            (Ok (StepResult observation reward terminated truncated info),
             mkSelf (env s) (x_center s) h)
        end
      end.

End Wrapper.

Arguments mkSelf {Env} _ _ _.
Arguments env {Env} _.
Arguments x_center {Env} _.
Arguments history {Env} _.
Arguments init {Env} _.
Arguments skill_reward {Env Info} _ _ _ _ _ _ _.

End CenterSkill.

(** ** class LandingSkill(Skill) *)

Module LandingSkill.

Section Wrapper.
Variable Env : Type.
Variable Info : Type.

Record self : Type := mkSelf {
  env : Env;
  x_landing : Q;
  y_landing : Q;
  theta_level : Q
}.

(** [__init__] *)
Definition init (e : Env) : self :=
  mkSelf e 0 0 0.

Definition skill_reward (s : self) (observation : Observation) (reward : Q)
    (terminated truncated : pyflag) (info : Info)
  : res (step_result Info) * self :=
  if truthy terminated || truthy truncated then
    (Ok (StepResult observation reward terminated truncated info), s)
  else
    let x_ := ob0 observation in
    let y_ := ob1 observation in
    let theta_ := ob4 observation in
    let reward := 1 in
    let terminated := PyInt 0 in
    let truncated := PyInt 0 in
    let reward := reward - Qabs (x_landing s - x_) ^ 2 in
    let reward := reward - Qabs (y_landing s - y_) ^ 2 in
    let reward := reward - Qabs (theta_level s - theta_) in
    (Ok (StepResult observation reward terminated truncated info), s).

End Wrapper.

Arguments mkSelf {Env} _ _ _ _.
Arguments env {Env} _.
Arguments x_landing {Env} _.
Arguments y_landing {Env} _.
Arguments theta_level {Env} _.
Arguments init {Env} _.
Arguments skill_reward {Env Info} _ _ _ _ _ _.

End LandingSkill.

(** ** Sequences of calls on one wrapper

    The base class feeds every environment step to [skill_reward]; a wrapper
    therefore sees a sequence of calls, each with the five components of the
    base step.  [calls] runs such a sequence from a given wrapper state and
    keeps the state each call leaves behind. *)

Record call_args (Info : Type) : Type := CallArgs {
  ca_observation : Observation;
  ca_reward : Q;
  ca_terminated : pyflag;
  ca_truncated : pyflag;
  ca_info : Info
}.
Arguments CallArgs {Info} _ _ _ _ _.
Arguments ca_observation {Info} _.
Arguments ca_reward {Info} _.
Arguments ca_terminated {Info} _.
Arguments ca_truncated {Info} _.
Arguments ca_info {Info} _.

Definition nonterminal {Info : Type} (c : call_args Info) : bool :=
  negb (truthy (ca_terminated c) || truthy (ca_truncated c)).

Definition stabilize_call {Env Info : Type} (env_reset : Env -> Env)
    (s : StabilizeSkill.self Env) (c : call_args Info) :=
  StabilizeSkill.skill_reward env_reset s (ca_observation c) (ca_reward c)
    (ca_terminated c) (ca_truncated c) (ca_info c).

Definition center_call {Env Info : Type} (env_reset : Env -> Env)
    (s : CenterSkill.self Env) (c : call_args Info) :=
  CenterSkill.skill_reward env_reset s (ca_observation c) (ca_reward c)
    (ca_terminated c) (ca_truncated c) (ca_info c).

Definition landing_call {Env Info : Type}
    (s : LandingSkill.self Env) (c : call_args Info) :=
  LandingSkill.skill_reward s (ca_observation c) (ca_reward c)
    (ca_terminated c) (ca_truncated c) (ca_info c).

(** State after a sequence of calls (a call that raises leaves the state it
    had reached). *)
Definition calls {S C R : Type} (call : S -> C -> res R * S)
    (s : S) (cs : list C) : S :=
  fold_left (fun st c => snd (call st c)) cs s.

(** Results of a sequence of calls, in order. *)
Fixpoint results {S C R : Type} (call : S -> C -> res R * S)
    (s : S) (cs : list C) : list (res R) :=
  match cs with
  | [] => []
  | c :: cs' => fst (call s c) :: results call (snd (call s c)) cs'
  end.

(** The lists of a history dictionary grow together: every path of
    [skill_reward] appends to all of them or replaces all of them. *)
Definition stabilize_consistent {Env : Type} (s : StabilizeSkill.self Env)
  : Prop :=
  let h := StabilizeSkill.history s in
  length (StabilizeSkill.y h) = length (StabilizeSkill.x h) /\
  length (StabilizeSkill.theta h) = length (StabilizeSkill.x h).

Definition center_consistent {Env : Type} (s : CenterSkill.self Env) : Prop :=
  let h := CenterSkill.history s in
  length (CenterSkill.theta h) = length (CenterSkill.y h).

Definition stabilize_inv {Env : Type} (s : StabilizeSkill.self Env) : Prop :=
  stabilize_consistent s /\
  (length (StabilizeSkill.x (StabilizeSkill.history s)) <= 300)%nat.

Definition center_inv {Env : Type} (s : CenterSkill.self Env) : Prop :=
  center_consistent s /\
  (length (CenterSkill.y (CenterSkill.history s)) <= 300)%nat.

(** ** The selector training loop ([__main__], lines 224-349)

    Everything the loop calls is external: the vector environment and the PPO
    agents.  They are kept abstract, as operations on a [World] that holds
    the environment, the agents' networks and the random state.  Each call is
    also recorded as an [event], so that what the loop calls, on whom and in
    which order can be stated.

    The environment is a vector environment with [num_envs=1]: a batch is
    modelled by its only row, so [state[0][6]] is [ob6 state], [action[0]] is
    the action, [np.any(termination)] is the flag, and the step action [[0]]
    is [0]. *)

Inductive agent_ref : Type :=
| stabilize_agent
| center_agent
| landing_agent
| pop_member (i : nat).

Definition is_skill_agent (a : agent_ref) : bool :=
  match a with
  | pop_member _ => false
  | _ => true
  end.

Record skill_entry : Type := mkEntry {
  skill : String.string;
  agent : agent_ref;
  skill_duration : nat
}.

(** The dictionary [trained_skills], keyed by the selector's action. *)
Definition trained_skills : list (Z * skill_entry) :=
  [ (0%Z, mkEntry "stabilize"%string stabilize_agent 40);
    (1%Z, mkEntry "center"%string center_agent 40);
    (2%Z, mkEntry "landing"%string landing_agent 40) ].

(** [d[k]] on a dictionary: the value of the key, or [KeyError]. *)
Fixpoint dict_get {V : Type} (d : list (Z * V)) (k : Z) : res V :=
  match d with
  | [] => Raise KeyError
  | (k', v) :: d' => if (k' =? k)%Z then Ok v else dict_get d' k
  end.

Definition POPULATION_SIZE : nat := 1.
Definition EPISODES : nat := 1000.

(** [pop]: the list of selector agents made by [initialPopulation]. *)
Definition pop : list agent_ref := map pop_member (seq 0 POPULATION_SIZE).

(** Truthiness of a float, as in [if state[0][6] or state[0][7]]. *)
Definition float_truthy (q : Q) : bool := negb (Qeq_bool q 0).

(** The test "If landed, do nothing" of the inner loop. *)
Definition landed (state : Observation) : bool :=
  float_truthy (ob6 state) || float_truthy (ob7 state).

Section Signatures.

Variable Info : Type.
(** Log-probabilities, entropies and value estimates are tensors that the
    loop only stores and hands back. *)
Variable Tensor : Type.

(** [(action, log_prob, entropy, value)] as returned by [getAction]. *)
Record action_out : Type := ActionOut {
  action : Z;
  log_prob : Tensor;
  entropy : Tensor;
  value : Tensor
}.

(** What [env.step] of the vector environment returns. *)
Record vec_step : Type := VecStep {
  vs_next_state : Observation;
  vs_reward : Q;
  vs_termination : bool;
  vs_truncation : bool;
  vs_info : Info
}.

(** The tuple handed to [agent.learn]. *)
Record experiences : Type := Experiences {
  ex_states : list Observation;
  ex_actions : list Z;
  ex_log_probs : list Tensor;
  ex_rewards : list Q;
  ex_terminations : list bool;
  ex_values : list Tensor;
  ex_next_state : Observation
}.

Inductive event : Type :=
| EvReset
| EvGetAction (who : agent_ref) (state : Observation) (out : action_out)
| EvStep (a : Z) (r : vec_step)
| EvLearn (who : agent_ref) (e : experiences)
| EvScoresAppend (who : agent_ref) (score : Q)
| EvStepsAdd (who : agent_ref) (n : nat).

End Signatures.

Arguments ActionOut {Tensor} _ _ _ _.
Arguments action {Tensor} _.
Arguments log_prob {Tensor} _.
Arguments entropy {Tensor} _.
Arguments value {Tensor} _.
Arguments VecStep {Info} _ _ _ _ _.
Arguments vs_next_state {Info} _.
Arguments vs_reward {Info} _.
Arguments vs_termination {Info} _.
Arguments vs_truncation {Info} _.
Arguments vs_info {Info} _.
Arguments Experiences {Tensor} _ _ _ _ _ _ _.
Arguments ex_states {Tensor} _.
Arguments ex_actions {Tensor} _.
Arguments ex_log_probs {Tensor} _.
Arguments ex_rewards {Tensor} _.
Arguments ex_terminations {Tensor} _.
Arguments ex_values {Tensor} _.
Arguments ex_next_state {Tensor} _.
Arguments EvReset {Info Tensor}.
Arguments EvGetAction {Info Tensor} _ _ _.
Arguments EvStep {Info Tensor} _ _.
Arguments EvLearn {Info Tensor} _ _.
Arguments EvScoresAppend {Info Tensor} _ _.
Arguments EvStepsAdd {Info Tensor} _ _.

(** The external operations, on a [World] that holds the environment, the
    networks of all agents and the random state. *)
Class Externals (World Info Tensor : Type) : Type := {
  getAction : agent_ref -> Observation -> World -> action_out Tensor * World;
  env_reset : World -> (Observation * Info) * World;
  env_step : Z -> World -> vec_step Info * World;
  learn : agent_ref -> experiences Tensor -> World -> World;
  (** [agent.scores.append(score)] and [agent.steps[-1] += n]. *)
  scores_append : agent_ref -> Q -> World -> World;
  steps_add : agent_ref -> nat -> World -> World
}.

(** *** A state, exception and trace monad *)

Record outcome (World Info Tensor A : Type) : Type := Outcome {
  result : res A;
  world : World;
  events : list (event Info Tensor)
}.
Arguments Outcome {World Info Tensor A} _ _ _.
Arguments result {World Info Tensor A} _.
Arguments world {World Info Tensor A} _.
Arguments events {World Info Tensor A} _.

Definition M (World Info Tensor A : Type) : Type :=
  World -> outcome World Info Tensor A.

Definition ret {World Info Tensor A : Type} (a : A) : M World Info Tensor A :=
  fun w => Outcome (Ok a) w [].

Definition raise {World Info Tensor A : Type} (e : exn)
  : M World Info Tensor A :=
  fun w => Outcome (Raise e) w [].

Definition bind {World Info Tensor A B : Type} (m : M World Info Tensor A)
    (k : A -> M World Info Tensor B) : M World Info Tensor B :=
  fun w =>
    let o := m w in
    match result o with
    | Ok a =>
      let o' := k a (world o) in
      Outcome (result o') (world o') (events o ++ events o')
    | Raise e => Outcome (Raise e) (world o) (events o)
    end.

Definition lift {World Info Tensor A : Type} (r : res A)
  : M World Info Tensor A :=
  fun w => Outcome r w [].

(** Reading a name that may still be unbound. *)
Definition name {World Info Tensor A : Type} (v : option A)
  : M World Info Tensor A :=
  match v with
  | Some a => ret a
  | None => raise NameError
  end.

Notation "x <- m ;; k" := (bind m (fun x => k))
  (at level 61, m at next level, right associativity).
Notation "m ;;; k" := (bind m (fun _ => k))
  (at level 61, right associativity).

(** *** The variables of the loop

    [next_state], [termination] and [truncation] are bound by the first
    environment step and keep their last value afterwards. *)
Record locals : Type := Locals {
  state : Observation;
  reward : Q;
  next_state : option Observation;
  termination : option bool;
  truncation : option bool
}.

Record buffers (Tensor : Type) : Type := Buffers {
  states : list Observation;
  actions : list Z;
  log_probs : list Tensor;
  rewards : list Q;
  terminations : list bool;
  values : list Tensor
}.
Arguments Buffers {Tensor} _ _ _ _ _ _.
Arguments states {Tensor} _.
Arguments actions {Tensor} _.
Arguments log_probs {Tensor} _.
Arguments rewards {Tensor} _.
Arguments terminations {Tensor} _.
Arguments values {Tensor} _.

Definition empty_buffers {Tensor : Type} : buffers Tensor :=
  Buffers [] [] [] [] [] [].

Section SelectorLoop.

Context {World Info Tensor : Type} {Ext : Externals World Info Tensor}.

(** The external calls, each leaving its event. *)
Definition call_getAction (who : agent_ref) (state : Observation)
  : M World Info Tensor (action_out Tensor) :=
  fun w => let (out, w') := getAction who state w in
           Outcome (Ok out) w' [EvGetAction who state out].

Definition call_reset : M World Info Tensor (Observation * Info) :=
  fun w => let (r, w') := env_reset w in Outcome (Ok r) w' [EvReset].

Definition call_step (a : Z) : M World Info Tensor (vec_step Info) :=
  fun w => let (r, w') := env_step a w in Outcome (Ok r) w' [EvStep a r].

Definition call_learn (who : agent_ref) (e : experiences Tensor)
  : M World Info Tensor unit :=
  fun w => Outcome (Ok tt) (learn who e w) [EvLearn who e].

Definition call_scores_append (who : agent_ref) (score : Q)
  : M World Info Tensor unit :=
  fun w => Outcome (Ok tt) (scores_append who score w)
                   [EvScoresAppend who score].

Definition call_steps_add (who : agent_ref) (n : nat)
  : M World Info Tensor unit :=
  fun w => Outcome (Ok tt) (steps_add who n w) [EvStepsAdd who n].

(** [for _ in range(n): body], where the body says whether it breaks. *)
Fixpoint for_range_break {S : Type} (n : nat)
    (body : S -> M World Info Tensor (S * bool)) (s : S)
  : M World Info Tensor S :=
  match n with
  | O => ret s
  | S n' =>
    sb <- body s ;;
    if snd sb then ret (fst sb) else for_range_break n' body (fst sb)
  end.

(** [for _ in range(n): body], without break. *)
Fixpoint for_range {S : Type} (n : nat)
    (body : S -> M World Info Tensor S) (s : S)
  : M World Info Tensor S :=
  match n with
  | O => ret s
  | S n' => s' <- body s ;; for_range n' body s'
  end.

(** [for x in xs: body]. *)
Fixpoint for_each {X S : Type} (xs : list X)
    (body : X -> S -> M World Info Tensor S) (s : S)
  : M World Info Tensor S :=
  match xs with
  | [] => ret s
  | x :: xs' => s' <- body x s ;; for_each xs' body s'
  end.

(** One pass of the inner loop (lines 312-326); the boolean is [break]. *)
Definition skill_step (skill_agent : agent_ref) (l : locals)
  : M World Info Tensor (locals * bool) :=
  r <- (if landed (state l) then
          call_step 0
        else
          out <- call_getAction skill_agent (state l) ;;
          call_step (action out)) ;;
  let l1 := Locals (state l) (reward l + vs_reward r)
                   (Some (vs_next_state r))
                   (Some (vs_termination r)) (Some (vs_truncation r)) in
  if vs_termination r || vs_truncation r then
    ret (l1, true)
  else
    ret (Locals (vs_next_state r) (reward l1) (next_state l1)
                (termination l1) (truncation l1), false).

(** The inner loop: [for skill_step in range(skill_duration)]. *)
Definition execute_skill (skill_agent : agent_ref) (duration : nat)
    (l : locals) : M World Info Tensor locals :=
  for_range_break duration (skill_step skill_agent) l.

(** One pass of the outer loop (lines 305-334). *)
Definition selector_step (sel : agent_ref)
    (v : locals * Q * buffers Tensor)
  : M World Info Tensor (locals * Q * buffers Tensor) :=
  let '(l, score, b) := v in
  out <- call_getAction sel (state l) ;;
  entry <- lift (dict_get trained_skills (action out)) ;;
  let skill_agent := agent entry in
  let duration := skill_duration entry in
  let l := Locals (state l) 0 (next_state l) (termination l)
                  (truncation l) in
  l <- execute_skill skill_agent duration l ;;
  let score := score + reward l in
  term <- name (termination l) ;;
  ret (l, score,
       Buffers (states b ++ [state l])
               (actions b ++ [action out])
               (log_probs b ++ [log_prob out])
               (rewards b ++ [reward l])
               (terminations b ++ [term])
               (values b ++ [value out])).

(** One episode of one selector agent (lines 294-352).  The state carried
    from agent to agent is the loop variables and [total_steps]. *)
Definition run_episode (sel : agent_ref) (v : locals * nat)
  : M World Info Tensor (locals * nat) :=
  let '(l, total_steps) := v in
  r <- call_reset ;;
  let l := Locals (fst r) (reward l) (next_state l) (termination l)
                  (truncation l) in
  let score := 0 in
  lsb <- for_range 500 (selector_step sel) (l, score, empty_buffers) ;;
  let '(l, score, b) := lsb in
  let idx_step := 499%nat in
  call_scores_append sel score ;;;
  nxt <- name (next_state l) ;;
  call_learn sel (Experiences (states b) (actions b) (log_probs b)
                              (rewards b) (terminations b) (values b)
                              nxt) ;;;
  call_steps_add sel (idx_step + 1) ;;;
  ret (l, (total_steps + (idx_step + 1))%nat).

(** [for idx_epi in pbar: for agent in pop: ...].  The progress bar and the
    logging of mean scores every [EVO_EPOCHS] episodes touch neither the
    environment nor the agents and are left out. *)
Definition training_loop (episodes : nat) (v : locals * nat)
  : M World Info Tensor (locals * nat) :=
  for_range episodes (for_each pop run_episode) v.

End SelectorLoop.

(** ** Reading a trace *)

(** [np.any(termination) or np.any(truncation)] of a step. *)
Definition terminal {Info : Type} (r : vec_step Info) : bool :=
  vs_termination r || vs_truncation r.

(** The assignments of one pass of the inner loop once [env.step] has
    returned [r], and whether the pass ends in [break]. *)
Definition after_step {Info : Type} (l : locals) (r : vec_step Info)
  : locals * bool :=
  if terminal r then
    (Locals (state l) (reward l + vs_reward r) (Some (vs_next_state r))
            (Some (vs_termination r)) (Some (vs_truncation r)), true)
  else
    (Locals (vs_next_state r) (reward l + vs_reward r)
            (Some (vs_next_state r))
            (Some (vs_termination r)) (Some (vs_truncation r)), false).

(** What the calls of [env.step] in a trace returned, in order. *)
Fixpoint step_results {Info Tensor : Type} (evs : list (event Info Tensor))
  : list (vec_step Info) :=
  match evs with
  | [] => []
  | EvStep _ r :: evs' => r :: step_results evs'
  | _ :: evs' => step_results evs'
  end.

(** The rewards of a list of steps, added up from 0 in the order of the
    steps. *)
Definition sum_rewards {Info : Type} (rs : list (vec_step Info)) : Q :=
  fold_left (fun acc r => acc + vs_reward r) rs 0.

(** The selector's action is a key of [trained_skills]. *)
Definition valid_action (a : Z) : bool :=
  match dict_get trained_skills a with
  | Ok _ => true
  | Raise _ => false
  end.

(** The steps of one skill execution of duration [d]: the run stops at the
    first terminal step, or else after [d] steps. *)
Fixpoint run_shape {Info : Type} (d : nat) (rs : list (vec_step Info))
    {struct rs} : bool :=
  match rs with
  | [] => (d =? 0)%nat
  | r :: rs' =>
    match d with
    | O => false
    | S d' =>
      if terminal r then
        match rs' with [] => true | _ :: _ => false end
      else run_shape d' rs'
    end
  end.

(** The trace of the inner loop, run by [skill_agent] for at most [d]
    passes from state [st] in world [w].  Every pass steps the environment:
    in a landed state with action 0 and without asking the skill agent, in
    any other state with the action that [getAction] of the skill agent has
    just returned.  The run goes on from the observation and the world the
    step returned, and ends with the first terminal step or with the [d]-th
    pass. *)
Section InnerRun.

Context {World Info Tensor : Type} {Ext : Externals World Info Tensor}.

Inductive inner_run (skill_agent : agent_ref)
  : nat -> Observation -> World -> list (event Info Tensor) -> Prop :=
| run_exhausted (st : Observation) (w : World) :
    inner_run skill_agent 0 st w []
| run_landed_break (d : nat) (st : Observation) (w w' : World)
    (r : vec_step Info) :
    landed st = true ->
    env_step 0 w = (r, w') ->
    terminal r = true ->
    inner_run skill_agent (S d) st w [EvStep 0 r]
| run_landed_next (d : nat) (st : Observation) (w w' : World)
    (r : vec_step Info) rest :
    landed st = true ->
    env_step 0 w = (r, w') ->
    terminal r = false ->
    inner_run skill_agent d (vs_next_state r) w' rest ->
    inner_run skill_agent (S d) st w (EvStep 0 r :: rest)
| run_skill_break (d : nat) (st : Observation) (w w1 w' : World)
    (out : action_out Tensor) (r : vec_step Info) :
    landed st = false ->
    getAction skill_agent st w = (out, w1) ->
    env_step (action out) w1 = (r, w') ->
    terminal r = true ->
    inner_run skill_agent (S d) st w
      [EvGetAction skill_agent st out; EvStep (action out) r]
| run_skill_next (d : nat) (st : Observation) (w w1 w' : World)
    (out : action_out Tensor) (r : vec_step Info) rest :
    landed st = false ->
    getAction skill_agent st w = (out, w1) ->
    env_step (action out) w1 = (r, w') ->
    terminal r = false ->
    inner_run skill_agent d (vs_next_state r) w' rest ->
    inner_run skill_agent (S d) st w
      (EvGetAction skill_agent st out :: EvStep (action out) r :: rest).

End InnerRun.

(** An event leaves the three skill agents as they were loaded: it is not a
    [learn], a [scores.append] or a [steps] update on one of them. *)
Definition leaves_skills_frozen {Info Tensor : Type}
    (e : event Info Tensor) : bool :=
  match e with
  | EvLearn who _ | EvScoresAppend who _ | EvStepsAdd who _ =>
    negb (is_skill_agent who)
  | EvReset | EvGetAction _ _ _ | EvStep _ _ => true
  end.

(** Every [learn] of the trace is on a member of [pop]. *)
Definition learns_in_pop {Info Tensor : Type} (e : event Info Tensor)
  : Prop :=
  match e with
  | EvLearn who _ => In who pop
  | _ => True
  end.

(** All events of a computation satisfy [P], from every world. *)
Definition emits {World Info Tensor A : Type}
    (P : event Info Tensor -> Prop) (m : M World Info Tensor A) : Prop :=
  forall w, Forall P (events (m w)).

Definition agent_eqb (a b : agent_ref) : bool :=
  match a, b with
  | stabilize_agent, stabilize_agent => true
  | center_agent, center_agent => true
  | landing_agent, landing_agent => true
  | pop_member i, pop_member j => (i =? j)%nat
  | _, _ => false
  end.

(** The [getAction] calls made on [who]. *)
Fixpoint getAction_calls {Info Tensor : Type} (who : agent_ref)
    (evs : list (event Info Tensor)) : nat :=
  match evs with
  | [] => 0
  | EvGetAction who' _ _ :: evs' =>
    ((if agent_eqb who' who then 1 else 0) + getAction_calls who evs')%nat
  | _ :: evs' => getAction_calls who evs'
  end.

(** The [learn] calls of a trace, with their arguments. *)
Fixpoint learn_calls {Info Tensor : Type} (evs : list (event Info Tensor))
  : list (agent_ref * experiences Tensor) :=
  match evs with
  | [] => []
  | EvLearn who e :: evs' => (who, e) :: learn_calls evs'
  | _ :: evs' => learn_calls evs'
  end.

(** All six lists collected for [learn] have [n] entries. *)
Definition all_lengths {Tensor : Type} (b : buffers Tensor) (n : nat) : Prop :=
  length (states b) = n /\ length (actions b) = n /\
  length (log_probs b) = n /\ length (rewards b) = n /\
  length (terminations b) = n /\ length (values b) = n.

Definition experience_lengths {Tensor : Type} (e : experiences Tensor)
    (n : nat) : Prop :=
  length (ex_states e) = n /\ length (ex_actions e) = n /\
  length (ex_log_probs e) = n /\ length (ex_rewards e) = n /\
  length (ex_terminations e) = n /\ length (ex_values e) = n.

(** ** Sample inputs

    A small deterministic world used to run the definitions: the world is
    the number of environment steps taken so far, every step pays reward 1,
    and the episode terminates on the third step.  The selector always picks
    skill 0. *)

Definition sample_observation : Observation :=
  mkObservation (1 # 2) (3 # 2) 0 0 (1 # 10) 0 0 0.

Definition sample_call : call_args unit :=
  CallArgs sample_observation 0 (PyBool false) (PyBool false) tt.

Definition sample_world : Externals nat unit unit := {|
  getAction := fun _ _ w => (ActionOut 0%Z tt tt tt, w);
  env_reset := fun w => ((sample_observation, tt), w);
  env_step := fun _ w =>
    (VecStep sample_observation 1 (w =? 2)%nat false tt, S w);
  learn := fun _ _ w => w;
  scores_append := fun _ _ w => w;
  steps_add := fun _ _ w => w
|}.

Definition sample_locals : locals :=
  Locals sample_observation 0 None None None.

(** Wrappers that have seen one step, and a history of 300 steps. *)
Definition sample_stabilize : StabilizeSkill.self nat :=
  StabilizeSkill.mkSelf 0%nat 0 (StabilizeSkill.mkHistory [0] [1] [0]).

Definition sample_center : CenterSkill.self nat :=
  CenterSkill.mkSelf 0%nat 0 (CenterSkill.mkHistory [1] [0]).

Definition sample_landing : LandingSkill.self nat :=
  LandingSkill.init 0%nat.

Definition sample_calls : list (call_args unit) := repeat sample_call 300.

(** ** Further readings of the script and of a trace *)

(** [action_dim = len(trained_skills)]: the size of the selector's action
    space (lines 245-247). *)
Definition action_dim : nat := length trained_skills.

(** What [getAction] returned on [who], call by call. *)
Fixpoint getAction_outputs {Info Tensor : Type} (who : agent_ref)
    (evs : list (event Info Tensor)) : list (action_out Tensor) :=
  match evs with
  | [] => []
  | EvGetAction who' _ out :: evs' =>
    if agent_eqb who' who then out :: getAction_outputs who evs'
    else getAction_outputs who evs'
  | _ :: evs' => getAction_outputs who evs'
  end.

(** The [scores.append] calls and the [steps] updates of a trace. *)
Fixpoint score_appends {Info Tensor : Type} (evs : list (event Info Tensor))
  : list (agent_ref * Q) :=
  match evs with
  | [] => []
  | EvScoresAppend who score :: evs' => (who, score) :: score_appends evs'
  | _ :: evs' => score_appends evs'
  end.

Fixpoint steps_adds {Info Tensor : Type} (evs : list (event Info Tensor))
  : list (agent_ref * nat) :=
  match evs with
  | [] => []
  | EvStepsAdd who n :: evs' => (who, n) :: steps_adds evs'
  | _ :: evs' => steps_adds evs'
  end.

(** The [env.reset] calls of a trace. *)
Fixpoint reset_count {Info Tensor : Type} (evs : list (event Info Tensor))
  : nat :=
  match evs with
  | [] => 0
  | EvReset :: evs' => S (reset_count evs')
  | _ :: evs' => reset_count evs'
  end.

(** The value of [state] when a skill run that started in [st] and made the
    steps [pre ++ [lst]] is over: a terminal last step leaves [state] at the
    observation the step was taken from, since [break] comes before
    [state = next_state]. *)
Definition state_after_run {Info : Type} (st : Observation)
    (pre : list (vec_step Info)) (lst : vec_step Info) : Observation :=
  if terminal lst then last (map vs_next_state pre) st
  else vs_next_state lst.

(** An observation with both legs on the ground, and a world that returns
    it from every step and ends the episode on the third step.  Its selector
    picks skill 1, its skill agents answer action 2. *)
Definition landed_observation : Observation :=
  mkObservation 0 0 0 0 0 0 1 1.

Definition touchdown_world : Externals nat unit unit := {|
  getAction := fun who _ w =>
    (ActionOut (if is_skill_agent who then 2%Z else 1%Z) tt tt tt, w);
  env_reset := fun w => ((sample_observation, tt), w);
  env_step := fun _ w =>
    (VecStep landed_observation 1 (w =? 2)%nat false tt, S w);
  learn := fun _ _ w => w;
  scores_append := fun _ _ w => w;
  steps_add := fun _ _ w => w
|}.

(** The observation that repeats the last entries of [sample_stabilize] and
    [sample_center], and the observation of the landing pad. *)
Definition still_observation : Observation :=
  mkObservation 0 1 0 0 0 0 0 0.

Definition pad_observation : Observation :=
  mkObservation 0 0 0 0 0 0 0 0.

(** The reward of a returned step (0 for a call that raised). *)
Definition sr_reward_of {Info : Type} (r : res (step_result Info)) : Q :=
  match r with
  | Ok sr => sr_reward sr
  | Raise _ => 0
  end.

(** An uninterrupted run of 700 non-terminal steps. *)
Definition long_run : list (call_args unit) := repeat sample_call 700.

(** The outer loop with its logging (lines 292-362).  Every [EVO_EPOCHS]
    episodes the script hands [total_steps] to [wandb.log] as
    ["global_step"]; the list [logged] collects these values.  The mean
    score logged beside it is computed by numpy from [agent.scores], which
    the agents keep, and is left out. *)
Definition EVO_EPOCHS : nat := 5.

Section LoggedLoop.

Context {World Info Tensor : Type} {Ext : Externals World Info Tensor}.

Definition epoch (idx_epi : nat) (v : locals * nat * list nat)
  : M World Info Tensor (locals * nat * list nat) :=
  let '(lt, logged) := v in
  lt' <- for_each pop run_episode lt ;;
  if ((idx_epi + 1) mod EVO_EPOCHS =? 0)%nat then
    ret (lt', logged ++ [snd lt'])
  else
    ret (lt', logged).

Definition logged_training_loop (episodes : nat)
    (v : locals * nat * list nat)
  : M World Info Tensor (locals * nat * list nat) :=
  for_each (seq 0 episodes) epoch v.

End LoggedLoop.

(** An event of a selector pass proper: a [getAction] or an [env.step]. *)
Definition acts_only {Info Tensor : Type} (e : event Info Tensor) : Prop :=
  match e with
  | EvGetAction _ _ _ | EvStep _ _ => True
  | EvReset | EvLearn _ _ | EvScoresAppend _ _ | EvStepsAdd _ _ => False
  end.

(** A world whose selector strays out of the keys of [trained_skills]. *)
Definition stray_world : Externals nat unit unit := {|
  getAction := fun _ _ w => (ActionOut 3%Z tt tt tt, w);
  env_reset := fun w => ((sample_observation, tt), w);
  env_step := fun _ w =>
    (VecStep sample_observation 1 false false tt, S w);
  learn := fun _ _ w => w;
  scores_append := fun _ _ w => w;
  steps_add := fun _ _ w => w
|}.

(** A second observation and call, away from [sample_observation]. *)
Definition moved_observation : Observation :=
  mkObservation (3 # 5) (7 # 5) 0 0 (1 # 5) 0 0 0.

Definition moved_call : call_args unit :=
  CallArgs moved_observation 0 (PyBool false) (PyBool false) tt.

Definition terminal_call : call_args unit :=
  CallArgs sample_observation 0 (PyBool true) (PyBool false) tt.

(** * Properties of the reward-shaping wrappers *)

Lemma last_item_snoc {A : Type} (l : list A) (a : A) :
  last_item (l ++ [a]) = Ok a.
Proof.
  induction l as [|b l IH]; [reflexivity|].
  simpl. destruct (l ++ [a]) eqn:E; [|exact IH].
  destruct l; discriminate.
Qed.

Lemma last_item_nonempty {A : Type} (l : list A) :
  (length l =? 0)%nat = false -> exists a, last_item l = Ok a.
Proof.
  induction l as [|b l IH]; [discriminate|].
  intros _. destruct l as [|c l]; [now exists b|].
  apply IH. reflexivity.
Qed.

Lemma last_item_same_length {A B : Type} (l : list A) (l' : list B) :
  length l' = length l ->
  (length l =? 0)%nat = false -> exists b, last_item l' = Ok b.
Proof.
  intros E H. apply last_item_nonempty. now rewrite E.
Qed.

Lemma calls_snoc {S C R : Type} (call : S -> C -> res R * S) s cs c :
  calls call s (cs ++ [c]) = snd (call (calls call s cs) c).
Proof. unfold calls. now rewrite fold_left_app. Qed.

(** An invariant of single calls is an invariant of sequences of calls. *)
Lemma calls_invariant {S C R : Type} (call : S -> C -> res R * S)
    (P : S -> Prop) :
  (forall s c, P s -> P (snd (call s c))) ->
  forall cs s, P s -> P (calls call s cs).
Proof.
  intros step cs. induction cs as [|c cs IH]; intros s Hs; [exact Hs|].
  apply IH, step, Hs.
Qed.

Section WrapperFacts.

Variable Env : Type.
Variable Info : Type.
Variable env_reset : Env -> Env.

Ltac split_call :=
  repeat match goal with
  | |- context [if ?b then _ else _] =>
      let E := fresh "E" in destruct b eqn:E; simpl
  | |- context [match last_item ?l with _ => _ end] =>
      let E := fresh "E" in destruct (last_item l) eqn:E; simpl
  end.

Ltac cap_bound :=
  repeat match goal with
  | H : (300 <? _)%nat = false |- _ =>
      apply Nat.ltb_ge in H; rewrite length_app in H; simpl in H
  | H : (_ =? 0)%nat = true |- _ => apply Nat.eqb_eq in H
  end.

Lemma stabilize_inv_init (e : Env) : stabilize_inv (StabilizeSkill.init e).
Proof. repeat split; simpl; lia. Qed.

Lemma center_inv_init (e : Env) : center_inv (CenterSkill.init e).
Proof. repeat split; simpl; lia. Qed.

Lemma stabilize_inv_step (s : StabilizeSkill.self Env) (c : call_args Info) :
  stabilize_inv s -> stabilize_inv (snd (stabilize_call env_reset s c)).
Proof.
  intros [[Hy Ht] Hx].
  unfold stabilize_call, StabilizeSkill.skill_reward,
    stabilize_inv, stabilize_consistent.
  split_call; cap_bound; rewrite ?length_app; simpl; lia.
Qed.

Lemma center_inv_step (s : CenterSkill.self Env) (c : call_args Info) :
  center_inv s -> center_inv (snd (center_call env_reset s c)).
Proof.
  intros [Ht Hy]. unfold center_consistent in Ht.
  unfold center_call, CenterSkill.skill_reward, center_inv, center_consistent.
  split_call; cap_bound; rewrite ?length_app; simpl; lia.
Qed.

Lemma stabilize_inv_calls (e : Env) (cs : list (call_args Info)) :
  stabilize_inv (calls (stabilize_call env_reset) (StabilizeSkill.init e) cs).
Proof.
  apply calls_invariant; [apply stabilize_inv_step|apply stabilize_inv_init].
Qed.

Lemma center_inv_calls (e : Env) (cs : list (call_args Info)) :
  center_inv (calls (center_call env_reset) (CenterSkill.init e) cs).
Proof.
  apply calls_invariant; [apply center_inv_step|apply center_inv_init].
Qed.

(** On a consistent history no index is out of range: the call returns. *)
Lemma stabilize_returns (s : StabilizeSkill.self Env) o r te tr (i : Info) :
  stabilize_consistent s ->
  exists sr,
    fst (StabilizeSkill.skill_reward env_reset s o r te tr i) = Ok sr /\
    sr_observation sr = o /\ sr_info sr = i.
Proof.
  intros [Hy Ht]. unfold StabilizeSkill.skill_reward.
  destruct (truthy te || truthy tr); [eexists; simpl; eauto|].
  destruct (length _ =? 0)%nat eqn:E; [eexists; simpl; eauto|].
  destruct (last_item_nonempty _ E) as [xp ->].
  destruct (last_item_same_length _ _ Hy E) as [yp ->].
  destruct (last_item_same_length _ _ Ht E) as [tp ->].
  destruct (300 <? _)%nat; eexists; simpl; eauto.
Qed.

Lemma center_returns (s : CenterSkill.self Env) o r te tr (i : Info) :
  center_consistent s ->
  exists sr,
    fst (CenterSkill.skill_reward env_reset s o r te tr i) = Ok sr /\
    sr_observation sr = o /\ sr_info sr = i.
Proof.
  intros Ht. unfold CenterSkill.skill_reward.
  destruct (truthy te || truthy tr); [eexists; simpl; eauto|].
  destruct (length _ =? 0)%nat eqn:E; [eexists; simpl; eauto|].
  destruct (last_item_nonempty _ E) as [yp ->].
  destruct (last_item_same_length _ _ Ht E) as [tp ->].
  destruct (300 <? _)%nat; eexists; simpl; eauto.
Qed.

Lemma landing_calls_fixed (s : LandingSkill.self Env)
    (cs : list (call_args Info)) :
  calls landing_call s cs = s.
Proof.
  apply (calls_invariant landing_call (fun s' => s' = s)); [|reflexivity].
  intros s' c ->. unfold landing_call, LandingSkill.skill_reward.
  now destruct (truthy _ || truthy _).
Qed.

End WrapperFacts.

Section WrapperClaims.

Variable Env : Type.
Variable Info : Type.
Variable env_reset : Env -> Env.

(** C4.  Every call of [skill_reward], on a wrapper of any of the three
    classes that was built by [__init__] and has since served any sequence
    of calls, returns a tuple whose observation and info are exactly the
    observation and info it was given; only reward, terminated and
    truncated are the wrapper's. *)
Theorem skill_reward_keeps_observation_and_info
    (e : Env) (cs : list (call_args Info))
    (o : Observation) (r : Q) (te tr : pyflag) (i : Info) :
  (exists rw te' tr',
      fst (StabilizeSkill.skill_reward env_reset
             (calls (stabilize_call env_reset) (StabilizeSkill.init e) cs)
             o r te tr i)
      = Ok (StepResult o rw te' tr' i)) /\
  (exists rw te' tr',
      fst (CenterSkill.skill_reward env_reset
             (calls (center_call env_reset) (CenterSkill.init e) cs)
             o r te tr i)
      = Ok (StepResult o rw te' tr' i)) /\
  (exists rw te' tr',
      fst (LandingSkill.skill_reward
             (calls landing_call (LandingSkill.init e) cs)
             o r te tr i)
      = Ok (StepResult o rw te' tr' i)).
Proof.
  split; [|split].
  - destruct (stabilize_inv_calls Env Info env_reset e cs) as [Hc _].
    destruct (stabilize_returns Env Info env_reset _ o r te tr i Hc)
      as [[o' rw te' tr' i'] [E [Ho Hi]]].
    simpl in Ho, Hi. subst. now exists rw, te', tr'.
  - destruct (center_inv_calls Env Info env_reset e cs) as [Hc _].
    destruct (center_returns Env Info env_reset _ o r te tr i Hc)
      as [[o' rw te' tr' i'] [E [Ho Hi]]].
    simpl in Ho, Hi. subst. now exists rw, te', tr'.
  - unfold LandingSkill.skill_reward.
    destruct (truthy te || truthy tr); simpl; eauto.
Qed.

(** C7.  When the base step is terminated or truncated, [StabilizeSkill]
    returns reward -100.0 and clears its history, [CenterSkill] returns
    reward -1000.0 and clears its history, and [LandingSkill] returns the
    base reward unchanged; all three pass the two flags through. *)
Theorem terminal_step_rewards
    (ss : StabilizeSkill.self Env) (sc : CenterSkill.self Env)
    (sl : LandingSkill.self Env)
    (o : Observation) (r : Q) (te tr : pyflag) (i : Info) :
  truthy te || truthy tr = true ->
  StabilizeSkill.skill_reward env_reset ss o r te tr i
    = (Ok (StepResult o (-100 # 1) te tr i),
       StabilizeSkill.mkSelf (StabilizeSkill.env ss)
         (StabilizeSkill.theta_level ss)
         (StabilizeSkill.mkHistory [] [] [])) /\
  CenterSkill.skill_reward env_reset sc o r te tr i
    = (Ok (StepResult o (-1000 # 1) te tr i),
       CenterSkill.mkSelf (CenterSkill.env sc) (CenterSkill.x_center sc)
         (CenterSkill.mkHistory [] [])) /\
  LandingSkill.skill_reward sl o r te tr i
    = (Ok (StepResult o r te tr i), sl).
Proof.
  intros H.
  unfold StabilizeSkill.skill_reward, CenterSkill.skill_reward,
    LandingSkill.skill_reward.
  rewrite H. repeat split.
Qed.

(** C5.  On a step that is neither terminated nor truncated, with between
    1 and 299 entries in the history, [StabilizeSkill] returns reward
    1 - (10|x_prev - x|)^2 - (10|y_prev - y|)^2 - (10|theta_prev - theta|)^2
    and [CenterSkill] returns reward
    1 - (2|x_center - x|)^2 - (10|y_prev - y|)^2 - (10|theta_prev - theta|)^2,
    the prev values being the last history entries; on an empty history
    both return reward exactly 1 with terminated = truncated = 0 and record
    the current observation. *)
Theorem shaped_reward_from_history
    (ss : StabilizeSkill.self Env) (sc : CenterSkill.self Env)
    (e : Env) (level center : Q)
    (o : Observation) (r : Q) (te tr : pyflag) (i : Info)
    (x_prev y_prev theta_prev cy_prev ctheta_prev : Q) :
  truthy te || truthy tr = false ->
  (1 <= length (StabilizeSkill.x (StabilizeSkill.history ss)) <= 299)%nat ->
  last_item (StabilizeSkill.x (StabilizeSkill.history ss)) = Ok x_prev ->
  last_item (StabilizeSkill.y (StabilizeSkill.history ss)) = Ok y_prev ->
  last_item (StabilizeSkill.theta (StabilizeSkill.history ss))
    = Ok theta_prev ->
  (1 <= length (CenterSkill.y (CenterSkill.history sc)) <= 299)%nat ->
  last_item (CenterSkill.y (CenterSkill.history sc)) = Ok cy_prev ->
  last_item (CenterSkill.theta (CenterSkill.history sc)) = Ok ctheta_prev ->
  (exists rw,
      StabilizeSkill.skill_reward env_reset ss o r te tr i
      = (Ok (StepResult o rw (PyInt 0) (PyInt 0) i),
         StabilizeSkill.mkSelf (StabilizeSkill.env ss)
           (StabilizeSkill.theta_level ss)
           (StabilizeSkill.mkHistory
              (StabilizeSkill.x (StabilizeSkill.history ss) ++ [ob0 o])
              (StabilizeSkill.y (StabilizeSkill.history ss) ++ [ob1 o])
              (StabilizeSkill.theta (StabilizeSkill.history ss)
                 ++ [ob4 o]))) /\
      rw == 1 - (10 * Qabs (x_prev - ob0 o)) ^ 2
              - (10 * Qabs (y_prev - ob1 o)) ^ 2
              - (10 * Qabs (theta_prev - ob4 o)) ^ 2) /\
  (exists rw,
      CenterSkill.skill_reward env_reset sc o r te tr i
      = (Ok (StepResult o rw (PyInt 0) (PyInt 0) i),
         CenterSkill.mkSelf (CenterSkill.env sc) (CenterSkill.x_center sc)
           (CenterSkill.mkHistory
              (CenterSkill.y (CenterSkill.history sc) ++ [ob1 o])
              (CenterSkill.theta (CenterSkill.history sc) ++ [ob4 o]))) /\
      rw == 1 - (2 * Qabs (CenterSkill.x_center sc - ob0 o)) ^ 2
              - (10 * Qabs (cy_prev - ob1 o)) ^ 2
              - (10 * Qabs (ctheta_prev - ob4 o)) ^ 2) /\
  StabilizeSkill.skill_reward env_reset
      (StabilizeSkill.mkSelf e level (StabilizeSkill.mkHistory [] [] []))
      o r te tr i
    = (Ok (StepResult o 1 (PyInt 0) (PyInt 0) i),
       StabilizeSkill.mkSelf e level
         (StabilizeSkill.mkHistory [ob0 o] [ob1 o] [ob4 o])) /\
  CenterSkill.skill_reward env_reset
      (CenterSkill.mkSelf e center (CenterSkill.mkHistory [] []))
      o r te tr i
    = (Ok (StepResult o 1 (PyInt 0) (PyInt 0) i),
       CenterSkill.mkSelf e center
         (CenterSkill.mkHistory [ob1 o] [ob4 o])).
Proof.
  intros Hf Hlen Hx Hy Ht Hclen Hcy Hct.
  unfold StabilizeSkill.skill_reward, CenterSkill.skill_reward.
  rewrite Hf, Hx, Hy, Ht, Hcy, Hct. cbv beta iota zeta.
  repeat split.
  - destruct (length _ =? 0)%nat eqn:E0;
      [apply Nat.eqb_eq in E0; lia|].
    destruct (300 <? _)%nat eqn:E1;
      [apply Nat.ltb_lt in E1; simpl in E1; rewrite length_app in E1;
       simpl in E1; lia|].
    eexists. split; [reflexivity|]. ring.
  - destruct (length _ =? 0)%nat eqn:E0;
      [apply Nat.eqb_eq in E0; lia|].
    destruct (300 <? _)%nat eqn:E1;
      [apply Nat.ltb_lt in E1; simpl in E1; rewrite length_app in E1;
       simpl in E1; lia|].
    eexists. split; [reflexivity|].
    rewrite Qabs_Qmult.
    setoid_replace (Qabs 2) with 2 by reflexivity.
    ring.
Qed.

(** C6.  On a step that is neither terminated nor truncated,
    [LandingSkill] returns reward
    1 - |x_landing - x|^2 - |y_landing - y|^2 - |theta_level - theta| with
    the three targets 0, and terminated = truncated = 0.  The result is the
    same whatever environment the wrapper holds and whatever calls it has
    served, and the wrapper (its environment included) is left as
    [__init__] made it: no history, no reset, no step cap. *)
Theorem landing_reward_stateless
    (e e' : Env) (cs cs' : list (call_args Info))
    (o : Observation) (r : Q) (te tr : pyflag) (i : Info) :
  (truthy te || truthy tr = false ->
   exists rw,
     fst (LandingSkill.skill_reward
            (calls landing_call (LandingSkill.init e) cs) o r te tr i)
     = Ok (StepResult o rw (PyInt 0) (PyInt 0) i) /\
     rw == 1 - Qabs (0 - ob0 o) ^ 2 - Qabs (0 - ob1 o) ^ 2
             - Qabs (0 - ob4 o)) /\
  fst (LandingSkill.skill_reward
         (calls landing_call (LandingSkill.init e) cs) o r te tr i)
  = fst (LandingSkill.skill_reward
           (calls landing_call (LandingSkill.init e') cs') o r te tr i) /\
  snd (LandingSkill.skill_reward
         (calls landing_call (LandingSkill.init e) cs) o r te tr i)
  = LandingSkill.init e.
Proof.
  rewrite !landing_calls_fixed. unfold LandingSkill.skill_reward.
  destruct (truthy te || truthy tr); cbv beta iota zeta.
  - repeat split. discriminate.
  - repeat split. intros _. eexists. split; [reflexivity|].
    simpl. reflexivity.
Qed.

Lemma stabilize_nonterminal_grows
    (s : StabilizeSkill.self Env) (c : call_args Info) :
  stabilize_consistent s ->
  nonterminal c = true ->
  (length (StabilizeSkill.x (StabilizeSkill.history s)) < 300)%nat ->
  length (StabilizeSkill.x (StabilizeSkill.history
                              (snd (stabilize_call env_reset s c))))
  = S (length (StabilizeSkill.x (StabilizeSkill.history s))).
Proof.
  intros [Hy Ht] Hn Hlt. apply negb_true_iff in Hn.
  unfold stabilize_call, StabilizeSkill.skill_reward. rewrite Hn.
  destruct (length _ =? 0)%nat eqn:E;
    [simpl; rewrite length_app; simpl; lia|].
  destruct (last_item_nonempty _ E) as [xp ->].
  destruct (last_item_same_length _ _ Hy E) as [yp ->].
  destruct (last_item_same_length _ _ Ht E) as [tp ->].
  cbv beta iota zeta.
  destruct (300 <? _)%nat eqn:E1.
  - apply Nat.ltb_lt in E1. simpl in E1. rewrite length_app in E1.
    simpl in E1. lia.
  - simpl. rewrite length_app. simpl. lia.
Qed.

Lemma center_nonterminal_grows
    (s : CenterSkill.self Env) (c : call_args Info) :
  center_consistent s ->
  nonterminal c = true ->
  (length (CenterSkill.y (CenterSkill.history s)) < 300)%nat ->
  length (CenterSkill.y (CenterSkill.history
                           (snd (center_call env_reset s c))))
  = S (length (CenterSkill.y (CenterSkill.history s))).
Proof.
  intros Ht Hn Hlt. apply negb_true_iff in Hn.
  unfold center_call, CenterSkill.skill_reward. rewrite Hn.
  destruct (length _ =? 0)%nat eqn:E;
    [simpl; rewrite length_app; simpl; lia|].
  destruct (last_item_nonempty _ E) as [yp ->].
  destruct (last_item_same_length _ _ Ht E) as [tp ->].
  cbv beta iota zeta.
  destruct (300 <? _)%nat eqn:E1.
  - apply Nat.ltb_lt in E1. simpl in E1. rewrite length_app in E1.
    simpl in E1. lia.
  - simpl. rewrite length_app. simpl. lia.
Qed.

Lemma stabilize_cap (s : StabilizeSkill.self Env) (c : call_args Info) :
  stabilize_consistent s ->
  nonterminal c = true ->
  length (StabilizeSkill.x (StabilizeSkill.history s)) = 300%nat ->
  stabilize_call env_reset s c
  = (Ok (StepResult (ca_observation c) (10 # 1) (PyBool true) (PyInt 0)
           (ca_info c)),
     StabilizeSkill.mkSelf (env_reset (StabilizeSkill.env s))
       (StabilizeSkill.theta_level s) (StabilizeSkill.mkHistory [] [] [])).
Proof.
  intros [Hy Ht] Hn Hlen. apply negb_true_iff in Hn.
  unfold stabilize_call, StabilizeSkill.skill_reward. rewrite Hn.
  destruct (length _ =? 0)%nat eqn:E; [apply Nat.eqb_eq in E; lia|].
  destruct (last_item_nonempty _ E) as [xp ->].
  destruct (last_item_same_length _ _ Hy E) as [yp ->].
  destruct (last_item_same_length _ _ Ht E) as [tp ->].
  cbv beta iota zeta.
  destruct (300 <? _)%nat eqn:E1; [reflexivity|].
  apply Nat.ltb_ge in E1. simpl in E1. rewrite length_app in E1.
  simpl in E1. lia.
Qed.

Lemma center_cap (s : CenterSkill.self Env) (c : call_args Info) :
  center_consistent s ->
  nonterminal c = true ->
  length (CenterSkill.y (CenterSkill.history s)) = 300%nat ->
  center_call env_reset s c
  = (Ok (StepResult (ca_observation c) (10 # 1) (PyBool true) (PyInt 0)
           (ca_info c)),
     CenterSkill.mkSelf (env_reset (CenterSkill.env s))
       (CenterSkill.x_center s) (CenterSkill.mkHistory [] [])).
Proof.
  intros Ht Hn Hlen. apply negb_true_iff in Hn.
  unfold center_call, CenterSkill.skill_reward. rewrite Hn.
  destruct (length _ =? 0)%nat eqn:E; [apply Nat.eqb_eq in E; lia|].
  destruct (last_item_nonempty _ E) as [yp ->].
  destruct (last_item_same_length _ _ Ht E) as [tp ->].
  cbv beta iota zeta.
  destruct (300 <? _)%nat eqn:E1; [reflexivity|].
  apply Nat.ltb_ge in E1. simpl in E1. rewrite length_app in E1.
  simpl in E1. lia.
Qed.

(** From a fresh wrapper, the first 300 non-terminal steps are all kept. *)
Lemma stabilize_fills (e : Env) (cs : list (call_args Info)) :
  forallb nonterminal cs = true ->
  (length cs <= 300)%nat ->
  length (StabilizeSkill.x (StabilizeSkill.history
            (calls (stabilize_call env_reset) (StabilizeSkill.init e) cs)))
  = length cs.
Proof.
  induction cs as [|c cs IH] using rev_ind; [reflexivity|].
  rewrite forallb_app, length_app. simpl. intros H Hlen.
  apply andb_true_iff in H. destruct H as [Hcs Hc].
  rewrite andb_true_r in Hc.
  rewrite calls_snoc, stabilize_nonterminal_grows.
  - rewrite IH; [lia|assumption|lia].
  - apply stabilize_inv_calls.
  - assumption.
  - rewrite IH; [lia|assumption|lia].
Qed.

Lemma center_fills (e : Env) (cs : list (call_args Info)) :
  forallb nonterminal cs = true ->
  (length cs <= 300)%nat ->
  length (CenterSkill.y (CenterSkill.history
            (calls (center_call env_reset) (CenterSkill.init e) cs)))
  = length cs.
Proof.
  induction cs as [|c cs IH] using rev_ind; [reflexivity|].
  rewrite forallb_app, length_app. simpl. intros H Hlen.
  apply andb_true_iff in H. destruct H as [Hcs Hc].
  rewrite andb_true_r in Hc.
  rewrite calls_snoc, center_nonterminal_grows.
  - rewrite IH; [lia|assumption|lia].
  - apply center_inv_calls.
  - assumption.
  - rewrite IH; [lia|assumption|lia].
Qed.

(** C8.  After every call of [skill_reward] each history list of
    [StabilizeSkill] and of [CenterSkill] has at most 300 entries.  A
    non-terminal step that finds 300 entries (the 301st in a row, the first
    300 all being kept) returns reward 10.0 with terminated = True, empties
    the history and resets the base environment. *)
Theorem history_capped_at_300
    (e : Env) (cs : list (call_args Info)) (c : call_args Info) :
  let ss := calls (stabilize_call env_reset) (StabilizeSkill.init e) cs in
  let sc := calls (center_call env_reset) (CenterSkill.init e) cs in
  ((length (StabilizeSkill.x (StabilizeSkill.history ss)) <= 300)%nat /\
   (length (StabilizeSkill.y (StabilizeSkill.history ss)) <= 300)%nat /\
   (length (StabilizeSkill.theta (StabilizeSkill.history ss)) <= 300)%nat /\
   (length (CenterSkill.y (CenterSkill.history sc)) <= 300)%nat /\
   (length (CenterSkill.theta (CenterSkill.history sc)) <= 300)%nat) /\
  (nonterminal c = true ->
   length (StabilizeSkill.x (StabilizeSkill.history ss)) = 300%nat ->
   stabilize_call env_reset ss c
   = (Ok (StepResult (ca_observation c) (10 # 1) (PyBool true) (PyInt 0)
            (ca_info c)),
      StabilizeSkill.mkSelf (env_reset (StabilizeSkill.env ss))
        (StabilizeSkill.theta_level ss)
        (StabilizeSkill.mkHistory [] [] []))) /\
  (nonterminal c = true ->
   length (CenterSkill.y (CenterSkill.history sc)) = 300%nat ->
   center_call env_reset sc c
   = (Ok (StepResult (ca_observation c) (10 # 1) (PyBool true) (PyInt 0)
            (ca_info c)),
      CenterSkill.mkSelf (env_reset (CenterSkill.env sc))
        (CenterSkill.x_center sc) (CenterSkill.mkHistory [] []))) /\
  (forallb nonterminal cs = true -> (length cs <= 300)%nat ->
   length (StabilizeSkill.x (StabilizeSkill.history ss)) = length cs /\
   length (CenterSkill.y (CenterSkill.history sc)) = length cs).
Proof.
  intros ss sc.
  destruct (stabilize_inv_calls Env Info env_reset e cs) as [[Hy Ht] Hx].
  destruct (center_inv_calls Env Info env_reset e cs) as [Hct Hcy].
  fold ss in Hy, Ht, Hx. fold sc in Hct, Hcy. red in Hct.
  split; [|split; [|split]].
  - repeat split; lia.
  - intros Hn Hlen. apply stabilize_cap; [split|..]; assumption.
  - intros Hn Hlen. now apply center_cap.
  - intros Hn Hlen. split;
      [now apply stabilize_fills | now apply center_fills].
Qed.

End WrapperClaims.

(** * Properties of the selector training loop *)

Lemma step_results_app {Info Tensor : Type} (e1 e2 : list (event Info Tensor)) :
  step_results (e1 ++ e2) = step_results e1 ++ step_results e2.
Proof.
  induction e1 as [|e e1 IH]; [reflexivity|].
  destruct e; simpl; now rewrite IH.
Qed.

Lemma getAction_calls_app {Info Tensor : Type} who
    (e1 e2 : list (event Info Tensor)) :
  getAction_calls who (e1 ++ e2)
  = (getAction_calls who e1 + getAction_calls who e2)%nat.
Proof.
  induction e1 as [|e e1 IH]; [reflexivity|].
  destruct e; simpl; rewrite IH; lia.
Qed.

Lemma learn_calls_app {Info Tensor : Type} (e1 e2 : list (event Info Tensor)) :
  learn_calls (e1 ++ e2) = learn_calls e1 ++ learn_calls e2.
Proof.
  induction e1 as [|e e1 IH]; [reflexivity|].
  destruct e; simpl; now rewrite IH.
Qed.

(** Every entry of [trained_skills] runs a skill agent for 40 steps. *)
Lemma trained_skills_entry (a : Z) (entry : skill_entry) :
  dict_get trained_skills a = Ok entry ->
  skill_duration entry = 40%nat /\ is_skill_agent (agent entry) = true.
Proof.
  unfold trained_skills. cbn [dict_get].
  destruct (0 =? a)%Z; [intros H; inversion H; now split|].
  destruct (1 =? a)%Z; [intros H; inversion H; now split|].
  destruct (2 =? a)%Z; [intros H; inversion H; now split|].
  discriminate.
Qed.

(** From here on the dictionary is only used through [trained_skills_entry]. *)
Opaque trained_skills.

Section LoopFacts.

Context {World Info Tensor : Type} {Ext : Externals World Info Tensor}.

(** One pass of the inner loop: what it calls and what it leaves. *)
Lemma skill_step_run (who : agent_ref) (l : locals) (w : World) :
  exists pre a r w',
    skill_step who l w
    = Outcome (Ok (after_step l r)) w' (pre ++ [EvStep a r]) /\
    ((landed (state l) = true /\ pre = [] /\ a = 0%Z) \/
     (landed (state l) = false /\
      exists out, pre = [EvGetAction who (state l) out] /\
                  a = action out)).
Proof.
  unfold skill_step, bind, call_step, call_getAction, after_step, terminal.
  destruct (landed (state l)).
  - destruct (env_step 0 w) as [r w'] eqn:E.
    exists [], 0%Z, r, w'. simpl. split; [|now left].
    destruct (vs_termination r || vs_truncation r); reflexivity.
  - destruct (getAction who (state l) w) as [out w1] eqn:G. simpl.
    destruct (env_step (action out) w1) as [r w'] eqn:E. simpl.
    exists [EvGetAction who (state l) out], (action out), r, w'.
    split; [|right; split; eauto].
    destruct (vs_termination r || vs_truncation r); reflexivity.
Qed.

(** The inner loop, one pass at a time. *)
Lemma execute_skill_step (who : agent_ref) (n : nat) (l : locals)
    (w : World) :
  exists pre a r w',
    ((landed (state l) = true /\ pre = [] /\ a = 0%Z) \/
     (landed (state l) = false /\
      exists out, pre = [EvGetAction who (state l) out] /\
                  a = action out)) /\
    execute_skill who (S n) l w
    = if terminal r then
        Outcome (Ok (fst (after_step l r))) w' (pre ++ [EvStep a r])
      else
        let o := execute_skill who n (fst (after_step l r)) w' in
        Outcome (result o) (world o) ((pre ++ [EvStep a r]) ++ events o).
Proof.
  destruct (skill_step_run who l w) as (pre & a & r & w' & E & Hpre).
  exists pre, a, r, w'. split; [exact Hpre|].
  unfold execute_skill. simpl. unfold bind at 1. rewrite E. simpl.
  unfold after_step. destruct (terminal r); simpl.
  - now rewrite app_nil_r.
  - reflexivity.
Qed.

Lemma pre_has_no_step (who : agent_ref) (st : Observation)
    (pre : list (event Info Tensor)) (a : Z) :
  ((landed st = true /\ pre = [] /\ a = 0%Z) \/
   (landed st = false /\
    exists out, pre = [EvGetAction who st out] /\ a = action out)) ->
  step_results pre = [].
Proof.
  intros [(_ & -> & _)|(_ & out & -> & _)]; reflexivity.
Qed.

(** The inner loop never raises, and its [reward] is the one it started
    with plus the rewards of its steps, in order. *)
Lemma execute_skill_reward (who : agent_ref) (n : nat) :
  forall (l : locals) (w : World),
  exists l',
    result (execute_skill who n l w) = Ok l' /\
    reward l'
    = fold_left (fun acc r => acc + vs_reward r)
        (step_results (events (execute_skill who n l w))) (reward l).
Proof.
  induction n as [|n IH]; intros l w.
  - exists l. split; reflexivity.
  - destruct (execute_skill_step who n l w) as (pre & a & r & w' & Hpre & E).
    rewrite E. apply pre_has_no_step in Hpre.
    unfold after_step. destruct (terminal r); simpl.
    + eexists. split; [reflexivity|].
      rewrite step_results_app, Hpre. reflexivity.
    + match goal with
      | |- context [execute_skill who n ?l1 w'] =>
          destruct (IH l1 w') as (l' & R & S)
      end.
      exists l'. split; [exact R|].
      rewrite S, !step_results_app, Hpre. reflexivity.
Qed.

(** After at least one pass, [termination] and [next_state] are bound. *)
Lemma execute_skill_binds (who : agent_ref) (n : nat) :
  forall (l l' : locals) (w : World),
    result (execute_skill who n l w) = Ok l' ->
    (0 < n)%nat \/ (termination l <> None /\ next_state l <> None) ->
    termination l' <> None /\ next_state l' <> None.
Proof.
  induction n as [|n IH]; intros l l' w R H.
  - destruct H as [H|H]; [lia|]. injection R as <-. exact H.
  - destruct (execute_skill_step who n l w) as (pre & a & r & w' & _ & E).
    rewrite E in R. unfold after_step in R.
    destruct (terminal r); simpl in R.
    + injection R as <-. simpl. split; discriminate.
    + eapply IH; [exact R|]. right. simpl. split; discriminate.
Qed.

(** The inner loop stops at the first terminal step, or after [n] steps. *)
Lemma execute_skill_shape (who : agent_ref) (n : nat) :
  forall (l : locals) (w : World),
    run_shape n (step_results (events (execute_skill who n l w))) = true.
Proof.
  induction n as [|n IH]; intros l w; [reflexivity|].
  destruct (execute_skill_step who n l w) as (pre & a & r & w' & Hpre & E).
  rewrite E. apply pre_has_no_step in Hpre.
  destruct (terminal r) eqn:T; simpl.
  - rewrite step_results_app, Hpre. simpl. now rewrite T.
  - rewrite !step_results_app, Hpre. simpl. rewrite T. apply IH.
Qed.

(** The inner loop, one pass at a time, with the calls it makes. *)
Lemma execute_skill_calls (who : agent_ref) (n : nat) (l : locals)
    (w : World) :
  exists pre a r w1 w',
    ((landed (state l) = true /\ pre = [] /\ a = 0%Z /\ w1 = w) \/
     (landed (state l) = false /\
      exists out, getAction who (state l) w = (out, w1) /\
                  pre = [EvGetAction who (state l) out] /\
                  a = action out)) /\
    env_step a w1 = (r, w') /\
    execute_skill who (S n) l w
    = if terminal r then
        Outcome (Ok (fst (after_step l r))) w' (pre ++ [EvStep a r])
      else
        let o := execute_skill who n (fst (after_step l r)) w' in
        Outcome (result o) (world o) ((pre ++ [EvStep a r]) ++ events o).
Proof.
  unfold execute_skill. cbn [for_range_break].
  unfold bind at 1, skill_step, bind, call_step, call_getAction, after_step,
    terminal.
  destruct (landed (state l)).
  - destruct (env_step 0 w) as [r w'] eqn:E.
    exists [], 0%Z, r, w, w'. split; [now left|]. split; [exact E|].
    simpl. destruct (vs_termination r || vs_truncation r); simpl;
      [now rewrite ?app_nil_r|reflexivity].
  - destruct (getAction who (state l) w) as [out w1] eqn:G. simpl.
    destruct (env_step (action out) w1) as [r w'] eqn:E. simpl.
    exists [EvGetAction who (state l) out], (action out), r, w1, w'.
    split; [right; split; eauto|]. split; [exact E|].
    destruct (vs_termination r || vs_truncation r); simpl; reflexivity.
Qed.

(** The inner loop makes exactly the calls of [inner_run]: it asks the
    skill agent exactly when the lander has not landed, steps with action 0
    otherwise, and steps in every pass. *)
Lemma execute_skill_inner_run (who : agent_ref) (n : nat) :
  forall (l : locals) (w : World),
    inner_run who n (state l) w (events (execute_skill who n l w)).
Proof.
  induction n as [|n IH]; intros l w; [apply run_exhausted|].
  destruct (execute_skill_calls who n l w)
    as (pre & a & r & w1 & w' & Hpre & S' & E).
  rewrite E. unfold after_step.
  destruct Hpre as [(L & -> & -> & ->)|(L & out & G & -> & ->)];
    destruct (terminal r) eqn:T; simpl.
  - now apply run_landed_break with (w' := w').
  - apply run_landed_next with (w' := w'); try assumption.
    apply (IH (Locals _ _ _ _ _)).
  - now apply run_skill_break with (w1 := w1) (w' := w').
  - apply run_skill_next with (w1 := w1) (w' := w'); try assumption.
    apply (IH (Locals _ _ _ _ _)).
Qed.

(** The inner loop calls [getAction] on no agent but the skill agent. *)
Lemma execute_skill_getAction_calls (who sel : agent_ref) (n : nat) :
  agent_eqb who sel = false ->
  forall (l : locals) (w : World),
    getAction_calls sel (events (execute_skill who n l w)) = 0%nat.
Proof.
  intros Hne. induction n as [|n IH]; intros l w; [reflexivity|].
  destruct (execute_skill_step who n l w) as (pre & a & r & w' & Hpre & E).
  rewrite E.
  assert (Hp : getAction_calls sel pre = 0%nat).
  { destruct Hpre as [(_ & -> & _)|(_ & out & -> & _)];
      [reflexivity|]. simpl. now rewrite Hne. }
  destruct (terminal r); simpl.
  - rewrite getAction_calls_app, Hp. reflexivity.
  - rewrite !getAction_calls_app, Hp, IH. reflexivity.
Qed.

Lemma execute_skill_learn_calls (who : agent_ref) (n : nat) :
  forall (l : locals) (w : World),
    learn_calls (events (execute_skill who n l w)) = [].
Proof.
  induction n as [|n IH]; intros l w; [reflexivity|].
  destruct (execute_skill_step who n l w) as (pre & a & r & w' & Hpre & E).
  rewrite E.
  assert (Hp : learn_calls pre = []).
  { destruct Hpre as [(_ & -> & _)|(_ & out & -> & _)]; reflexivity. }
  destruct (terminal r); simpl.
  - rewrite learn_calls_app, Hp. reflexivity.
  - rewrite !learn_calls_app, Hp, IH. reflexivity.
Qed.

(** The trace of one pass of the outer loop, whether or not it raises. *)
Lemma selector_step_events (sel : agent_ref) (l : locals) (score : Q)
    (b : buffers Tensor) (w : World) :
  exists out w1,
    getAction sel (state l) w = (out, w1) /\
    events (selector_step sel (l, score, b) w)
    = EvGetAction sel (state l) out ::
      match dict_get trained_skills (action out) with
      | Ok entry =>
        events (execute_skill (agent entry) (skill_duration entry)
                  (Locals (state l) 0 (next_state l) (termination l)
                          (truncation l)) w1)
      | Raise _ => []
      end.
Proof.
  destruct (getAction sel (state l) w) as [out w1] eqn:G.
  exists out, w1. split; [reflexivity|].
  unfold selector_step, bind, call_getAction, lift, name.
  rewrite G. simpl.
  destruct (dict_get trained_skills (action out)) as [entry|e];
    [|reflexivity].
  simpl.
  match goal with
  | |- context [execute_skill ?who ?n ?l0 w1] =>
      destruct (execute_skill_reward who n l0 w1) as (l' & R & _)
  end.
  rewrite R. simpl.
  destruct (termination l'); simpl; now rewrite app_nil_r.
Qed.

(** One pass of the outer loop on a valid action: it returns, with the
    reward of the skill run added to [score] and appended to [rewards]. *)
Lemma selector_step_run (sel : agent_ref) (l : locals) (score : Q)
    (b : buffers Tensor) (w : World) :
  valid_action (action (fst (getAction sel (state l) w))) = true ->
  exists out w1 entry l' t,
    getAction sel (state l) w = (out, w1) /\
    dict_get trained_skills (action out) = Ok entry /\
    let o := execute_skill (agent entry) (skill_duration entry)
               (Locals (state l) 0 (next_state l) (termination l)
                       (truncation l)) w1 in
    result o = Ok l' /\
    termination l' = Some t /\
    next_state l' <> None /\
    selector_step sel (l, score, b) w
    = Outcome
        (Ok (l', score + reward l',
             Buffers (states b ++ [state l'])
                     (actions b ++ [action out])
                     (log_probs b ++ [log_prob out])
                     (rewards b ++ [reward l'])
                     (terminations b ++ [t])
                     (values b ++ [value out])))
        (world o)
        (EvGetAction sel (state l) out :: events o).
Proof.
  intros V.
  destruct (getAction sel (state l) w) as [out w1] eqn:G. simpl in V.
  unfold valid_action in V.
  destruct (dict_get trained_skills (action out)) as [entry|e] eqn:D;
    [clear V|discriminate].
  destruct (trained_skills_entry _ _ D) as [Hd _].
  destruct (execute_skill_reward (agent entry) (skill_duration entry)
              (Locals (state l) 0 (next_state l) (termination l)
                      (truncation l)) w1) as (l' & R & _).
  destruct (execute_skill_binds _ _ _ _ _ R) as [Ht Hn];
    [left; rewrite Hd; lia|].
  destruct (termination l') as [t|] eqn:T; [|congruence].
  exists out, w1, entry, l', t.
  repeat (split; [first [reflexivity|assumption]|]).
  unfold selector_step, bind, call_getAction, lift, name.
  rewrite G. simpl. rewrite D. simpl. rewrite R. simpl.
  rewrite T. simpl. now rewrite app_nil_r.
Qed.

(** *** Events of composed computations *)

Section Emits.

Variable P : event Info Tensor -> Prop.

Lemma emits_ret {A : Type} (a : A) :
  emits P (ret a : M World Info Tensor A).
Proof. intros w. constructor. Qed.

Lemma emits_lift {A : Type} (r : res A) :
  emits P (lift r : M World Info Tensor A).
Proof. intros w. constructor. Qed.

Lemma emits_name {A : Type} (v : option A) :
  emits P (name v : M World Info Tensor A).
Proof. intros w. destruct v; constructor. Qed.

Lemma emits_bind {A B : Type} (m : M World Info Tensor A)
    (k : A -> M World Info Tensor B) :
  emits P m -> (forall a, emits P (k a)) -> emits P (bind m k).
Proof.
  intros Hm Hk w. unfold bind. specialize (Hm w).
  destruct (m w) as [[a|e] w1 e1]; simpl in *; [|exact Hm].
  apply Forall_app. split; [exact Hm|apply Hk].
Qed.

Lemma emits_for_range_break {S : Type} (n : nat)
    (body : S -> M World Info Tensor (S * bool)) :
  (forall s, emits P (body s)) ->
  forall s, emits P (for_range_break n body s).
Proof.
  intros Hb. induction n as [|n IH]; intros s; [apply emits_ret|].
  simpl. apply emits_bind; [apply Hb|].
  intros [s' [|]]; simpl; [apply emits_ret|apply IH].
Qed.

Lemma emits_for_range {S : Type} (n : nat)
    (body : S -> M World Info Tensor S) :
  (forall s, emits P (body s)) -> forall s, emits P (for_range n body s).
Proof.
  intros Hb. induction n as [|n IH]; intros s; [apply emits_ret|].
  simpl. apply emits_bind; [apply Hb|apply IH].
Qed.

Lemma emits_for_each {X S : Type} (xs : list X)
    (body : X -> S -> M World Info Tensor S) :
  (forall x s, In x xs -> emits P (body x s)) ->
  forall s, emits P (for_each xs body s).
Proof.
  induction xs as [|x xs IH]; intros Hb s; [apply emits_ret|].
  simpl. apply emits_bind; [apply Hb; now left|].
  intros s'. apply IH. intros y s0 Hy. apply Hb. now right.
Qed.

Lemma emits_getAction (who : agent_ref) (st : Observation) :
  (forall out, P (EvGetAction who st out)) ->
  emits P (call_getAction who st).
Proof.
  intros H w. unfold call_getAction.
  destruct (getAction who st w) as [out w']. simpl. auto.
Qed.

Lemma emits_step (a : Z) :
  (forall r, P (EvStep a r)) -> emits P (call_step a).
Proof.
  intros H w. unfold call_step.
  destruct (env_step a w) as [r w']. simpl. auto.
Qed.

Lemma emits_reset : P EvReset -> emits P call_reset.
Proof.
  intros H w. unfold call_reset.
  destruct (env_reset w) as [r w']. simpl. auto.
Qed.

End Emits.

(** Nothing in a selector pass touches an agent except through
    [getAction]. *)
Lemma selector_step_frozen (sel : agent_ref)
    (v : locals * Q * buffers Tensor) :
  emits (fun e => leaves_skills_frozen e = true /\ learns_in_pop e)
        (selector_step sel v).
Proof.
  destruct v as [[l score] b]. unfold selector_step.
  apply emits_bind; [apply emits_getAction; now split|]. intros out.
  apply emits_bind; [apply emits_lift|]. intros entry.
  apply emits_bind.
  - apply emits_for_range_break. intros l0. unfold skill_step.
    apply emits_bind.
    + destruct (landed (state l0)).
      * apply emits_step. now split.
      * apply emits_bind; [apply emits_getAction; now split|].
        intros out0. apply emits_step. now split.
    + intros r. destruct (vs_termination r || vs_truncation r);
        apply emits_ret.
  - intros l'. apply emits_bind; [apply emits_name|].
    intros t. apply emits_ret.
Qed.

Lemma run_episode_frozen (sel : agent_ref) (v : locals * nat) :
  In sel pop ->
  emits (fun e => leaves_skills_frozen e = true /\ learns_in_pop e)
        (run_episode sel v).
Proof.
  intros Hin. assert (Hs : is_skill_agent sel = false).
  { unfold pop in Hin. apply in_map_iff in Hin.
    now destruct Hin as (i & <- & _). }
  destruct v as [l total]. unfold run_episode.
  apply emits_bind; [apply emits_reset; now split|]. intros r.
  apply emits_bind;
    [apply emits_for_range; intros s; apply selector_step_frozen|].
  intros [[l' score] b].
  apply emits_bind.
  { intros w. simpl. constructor; [|constructor]. simpl.
    now rewrite Hs. }
  intros _. apply emits_bind; [apply emits_name|]. intros nxt.
  apply emits_bind.
  { intros w. simpl. constructor; [|constructor]. simpl.
    now rewrite Hs. }
  intros _. apply emits_bind.
  { intros w. simpl. constructor; [|constructor]. simpl.
    now rewrite Hs. }
  intros _. apply emits_ret.
Qed.

Lemma skill_agent_is_not_selector (who : agent_ref) (i : nat) :
  is_skill_agent who = true -> agent_eqb who (pop_member i) = false.
Proof. destruct who; simpl; [reflexivity..|discriminate]. Qed.

Lemma all_lengths_snoc (b : buffers Tensor) (k : nat)
    (st : Observation) (a : Z) (lp v : Tensor) (r : Q) (t : bool) :
  all_lengths b k ->
  all_lengths (Buffers (states b ++ [st]) (actions b ++ [a])
                       (log_probs b ++ [lp]) (rewards b ++ [r])
                       (terminations b ++ [t]) (values b ++ [v])) (S k).
Proof.
  unfold all_lengths. simpl. rewrite !length_app. simpl. lia.
Qed.

(** [n] passes of the outer loop of a selector whose actions are keys of
    [trained_skills]: all [n] passes are made, each asks the selector once
    and adds one entry to each list. *)
Lemma selector_loop_run (i : nat) (n : nat) :
  (forall s w,
      valid_action (action (fst (getAction (pop_member i) s w))) = true) ->
  forall (l : locals) (score : Q) (b : buffers Tensor) (w : World)
         (k : nat),
    all_lengths b k ->
    exists l' score' b',
      result (for_range n (selector_step (pop_member i)) (l, score, b) w)
      = Ok (l', score', b') /\
      all_lengths b' (k + n) /\
      getAction_calls (pop_member i)
        (events (for_range n (selector_step (pop_member i))
                   (l, score, b) w)) = n /\
      learn_calls
        (events (for_range n (selector_step (pop_member i))
                   (l, score, b) w)) = [] /\
      ((0 < n)%nat \/ next_state l <> None -> next_state l' <> None).
Proof.
  intros V. induction n as [|n IH]; intros l score b w k Hb.
  - exists l, score, b. simpl. rewrite Nat.add_0_r.
    repeat split; try apply Hb. intros [H|H]; [lia|exact H].
  - destruct (selector_step_run (pop_member i) l score b w (V _ _))
      as (out & w1 & entry & l1 & t & G & D & H).
    cbv zeta in H. destruct H as (R & T & N & E).
    destruct (trained_skills_entry _ _ D) as [_ Hs].
    change (for_range (S n) (selector_step (pop_member i)) (l, score, b) w)
      with (bind (selector_step (pop_member i) (l, score, b))
                 (for_range n (selector_step (pop_member i))) w).
    unfold bind. rewrite E. cbn [result world events].
    match goal with
    | |- context [for_range n _ (l1, ?sc, ?b1) ?w2] =>
        destruct (IH l1 sc b1 w2 (S k)) as (l' & score' & b' & R' & L' & C' & K' & N');
          [now apply all_lengths_snoc|]
    end.
    exists l', score', b'. rewrite R'.
    split; [reflexivity|]. split; [now rewrite Nat.add_succ_r|].
    split; [|split].
    + rewrite getAction_calls_app, C'.
      cbn [getAction_calls agent_eqb]. rewrite Nat.eqb_refl.
      rewrite execute_skill_getAction_calls;
        [reflexivity|now apply skill_agent_is_not_selector].
    + rewrite learn_calls_app, K'. cbn [learn_calls].
      now rewrite execute_skill_learn_calls.
    + intros _. apply N'. now right.
Qed.

End LoopFacts.

(** What [run_shape] says about a run of positive duration. *)
Lemma run_shape_spec {Info : Type} (rs : list (vec_step Info)) :
  forall d : nat,
    run_shape d rs = true -> (0 < d)%nat ->
    exists pre lst,
      rs = pre ++ [lst] /\
      Forall (fun r => terminal r = false) pre /\
      (length rs <= d)%nat /\
      (terminal lst = false -> length rs = d).
Proof.
  induction rs as [|r rs IH]; intros d H Hd.
  - simpl in H. apply Nat.eqb_eq in H. lia.
  - destruct d as [|d]; [lia|]. simpl in H.
    destruct (terminal r) eqn:T.
    + destruct rs; [|discriminate].
      exists [], r. simpl. repeat split; [constructor|lia|congruence].
    + destruct rs as [|r' rs'].
      * simpl in H. apply Nat.eqb_eq in H. subst d.
        exists [], r. simpl. repeat split; constructor.
      * destruct d as [|d]; [discriminate|].
        destruct (IH (S d) H) as (pre & lst & E & F & L & Q); [lia|].
        exists (r :: pre), lst. rewrite E. simpl. repeat split.
        -- constructor; assumption.
        -- rewrite <- E. simpl in *. lia.
        -- intros N. rewrite <- E. rewrite (Q N). reflexivity.
Qed.

Section LoopClaims.

Context {World Info Tensor : Type} {Ext : Externals World Info Tensor}.

(** C1.  In every pass of the selector loop whose action is a key of
    [trained_skills], the reward that is appended to [rewards] and added
    to [score] is the sum, started at 0 and taken in order, of the rewards
    that [env.step] returned during the skill run of that pass. *)
Theorem selector_reward_is_sum_of_step_rewards
    (sel : agent_ref) (l : locals) (score : Q) (b : buffers Tensor)
    (w : World) :
  valid_action (action (fst (getAction sel (state l) w))) = true ->
  let o := selector_step sel (l, score, b) w in
  let total := sum_rewards (step_results (events o)) in
  exists l' b',
    result o = Ok (l', score + total, b') /\
    reward l' = total /\
    rewards b' = rewards b ++ [total].
Proof.
  intros V.
  destruct (selector_step_run sel l score b w V)
    as (out & w1 & entry & l1 & t & G & D & H).
  cbv zeta in H. destruct H as (R & T & N & E).
  cbv zeta. rewrite E. cbn [result events step_results].
  destruct (execute_skill_reward (agent entry) (skill_duration entry)
              (Locals (state l) 0 (next_state l) (termination l)
                      (truncation l)) w1) as (l2 & R2 & S).
  rewrite R in R2. injection R2 as <-.
  unfold sum_rewards. simpl in S. rewrite <- S.
  eexists _, _. repeat split.
Qed.

(** C2, as the code has it.  The skill run of a selector pass makes at
    least one and at most 40 environment steps; every step before the
    last is neither terminated nor truncated; and the run is shorter than
    40 steps only when its last step is terminated or truncated. *)
Theorem skill_runs_until_terminal_or_40_steps
    (sel : agent_ref) (l : locals) (score : Q) (b : buffers Tensor)
    (w : World) :
  valid_action (action (fst (getAction sel (state l) w))) = true ->
  let rs := step_results (events (selector_step sel (l, score, b) w)) in
  exists pre lst,
    rs = pre ++ [lst] /\
    Forall (fun r => terminal r = false) pre /\
    (length rs <= 40)%nat /\
    (terminal lst = false -> length rs = 40%nat).
Proof.
  intros V.
  destruct (selector_step_run sel l score b w V)
    as (out & w1 & entry & l1 & t & G & D & H).
  cbv zeta in H. destruct H as (R & T & N & E).
  destruct (trained_skills_entry _ _ D) as [Hd _].
  cbv zeta. rewrite E. cbn [events step_results].
  rewrite <- Hd. apply run_shape_spec; [|rewrite Hd; lia].
  apply execute_skill_shape.
Qed.

(** C3.  In the whole selector training loop, for any number of episodes,
    no event is a [learn], a [scores.append] or a [steps] update on one of
    the three skill agents (they are only ever asked for an action), and
    every [learn] is on a member of [pop]. *)
Theorem skill_agents_stay_frozen
    (episodes : nat) (v : locals * nat) (w : World) :
  Forall (fun e => leaves_skills_frozen e = true /\ learns_in_pop e)
         (events (training_loop episodes v w)).
Proof.
  revert w. change (emits (fun e : event Info Tensor =>
                             leaves_skills_frozen e = true /\
                             learns_in_pop e)
                          (training_loop episodes v)).
  unfold training_loop. apply emits_for_range. intros s.
  apply emits_for_each. intros sel s0 Hin.
  now apply run_episode_frozen.
Qed.

(** C9.  A selector pass first asks the selector.  Then, for a key of
    [trained_skills], the inner loop makes up to 40 passes, and in every
    pass it steps the environment: when leg-contact flag 6 or 7 of the
    current state is truthy, with the fixed action [[0]] and without a
    [getAction] of the skill agent; otherwise with the action that
    [getAction] of the chosen skill agent has just returned for that state.
    These are all the calls of the pass; an action that is no key ends the
    pass before any of them. *)
Theorem landed_steps_skip_the_skill_agent
    (sel : agent_ref) (l : locals) (score : Q) (b : buffers Tensor)
    (w : World) :
  exists out w1 rest,
    getAction sel (state l) w = (out, w1) /\
    events (selector_step sel (l, score, b) w)
    = EvGetAction sel (state l) out :: rest /\
    match dict_get trained_skills (action out) with
    | Ok entry => inner_run (agent entry) 40 (state l) w1 rest
    | Raise _ => rest = []
    end.
Proof.
  destruct (selector_step_events sel l score b w)
    as (out & w1 & G & E).
  eexists out, w1, _. split; [exact G|].
  split; [exact E|].
  destruct (dict_get trained_skills (action out)) as [entry|e] eqn:D;
    [|reflexivity].
  destruct (trained_skills_entry _ _ D) as [Hd _]. rewrite <- Hd.
  apply (execute_skill_inner_run (agent entry) (skill_duration entry)
           (Locals (state l) 0 (next_state l) (termination l)
                   (truncation l)) w1).
Qed.

(** C10.  An episode of a selector whose actions are keys of
    [trained_skills] makes exactly 500 selector passes, whatever the
    environment reports, and calls [learn] once, on that selector, with
    six lists of exactly 500 entries each. *)
Theorem episode_makes_500_selector_steps
    (i : nat) (v : locals * nat) (w : World) :
  (forall s w',
      valid_action (action (fst (getAction (pop_member i) s w'))) = true) ->
  let o := run_episode (pop_member i) v w in
  exists l' ex,
    result o = Ok (l', (snd v + 500)%nat) /\
    getAction_calls (pop_member i) (events o) = 500%nat /\
    learn_calls (events o) = [(pop_member i, ex)] /\
    experience_lengths ex 500.
Proof.
  intros V. destruct v as [l total]. cbv zeta.
  unfold run_episode, bind, call_reset, call_scores_append, call_learn,
    call_steps_add, name, ret.
  destruct (env_reset w) as [[st inf] w0].
  change (499 + 1)%nat with 500%nat.
  remember 500%nat as n eqn:Hn.
  cbn [result world events fst snd].
  destruct (selector_loop_run i n V
              (Locals st (reward l) (next_state l) (termination l)
                      (truncation l)) 0 empty_buffers w0 0%nat)
    as (l' & score' & b' & R & L & C & K & N);
    [repeat split|].
  rewrite R. cbn [result world events].
  destruct (next_state l') as [nxt|] eqn:X;
    [|exfalso; apply N; [left; subst n; lia|reflexivity]].
  cbn [result world events].
  eexists l', _. split; [reflexivity|].
  split; [|split].
  - cbn [app getAction_calls]. rewrite getAction_calls_app, C.
    cbn [getAction_calls]. lia.
  - cbn [app learn_calls]. rewrite learn_calls_app, K. reflexivity.
  - exact L.
Qed.

End LoopClaims.

Transparent trained_skills.

(** * The theorems at the sample inputs *)

Example sample_pass_makes_three_steps :
  step_results
    (events (selector_step (Ext := sample_world) (pop_member 0)
               (sample_locals, 0, empty_buffers) 0%nat))
  = [ VecStep sample_observation 1 false false tt;
      VecStep sample_observation 1 false false tt;
      VecStep sample_observation 1 true false tt ].
Proof. reflexivity. Qed.

(** A pass that touches down after its first step: the skill agent is
    asked once, in the air, and the two landed states are stepped with
    action 0. *)
Example touchdown_pass_trace :
  events (selector_step (Ext := touchdown_world) (pop_member 0)
            (sample_locals, 0, empty_buffers) 0%nat)
  = [ EvGetAction (pop_member 0) sample_observation (ActionOut 1%Z tt tt tt);
      EvGetAction center_agent sample_observation (ActionOut 2%Z tt tt tt);
      EvStep 2%Z (VecStep landed_observation 1 false false tt);
      EvStep 0%Z (VecStep landed_observation 1 false false tt);
      EvStep 0%Z (VecStep landed_observation 1 true false tt) ].
Proof. reflexivity. Qed.

Lemma selector_reward_is_sum_of_step_rewards_witness :
  valid_action
    (action (fst (getAction (Externals := sample_world) (pop_member 0)
                    (state sample_locals) 0%nat))) = true /\
  let o := selector_step (Ext := sample_world) (pop_member 0)
             (sample_locals, 0, empty_buffers) 0%nat in
  let total := sum_rewards (step_results (events o)) in
  exists l' b',
    result o = Ok (l', 0 + total, b') /\
    reward l' = total /\
    rewards b' = rewards (Tensor := unit) empty_buffers ++ [total].
Proof.
  split; [reflexivity|].
  apply (selector_reward_is_sum_of_step_rewards (Ext := sample_world)).
  reflexivity.
Defined.

(** C2 as stated fails: in the sample world the third step of the skill run
    terminates the episode, and the run has made 3 steps, not 40, when
    control returns to the selector. *)
Lemma fixed_duration_counterexample :
  valid_action
    (action (fst (getAction (Externals := sample_world) (pop_member 0)
                    (state sample_locals) 0%nat))) = true /\
  length (step_results
            (events (selector_step (Ext := sample_world) (pop_member 0)
                       (sample_locals, 0, empty_buffers) 0%nat))) = 3%nat /\
  length (step_results
            (events (selector_step (Ext := sample_world) (pop_member 0)
                       (sample_locals, 0, empty_buffers) 0%nat))) <> 40%nat.
Proof.
  split; [reflexivity|]. split; [reflexivity|].
  vm_compute. discriminate.
Qed.

Lemma skill_runs_until_terminal_or_40_steps_witness :
  valid_action
    (action (fst (getAction (Externals := sample_world) (pop_member 0)
                    (state sample_locals) 0%nat))) = true /\
  let rs := step_results
              (events (selector_step (Ext := sample_world) (pop_member 0)
                         (sample_locals, 0, empty_buffers) 0%nat)) in
  exists pre lst,
    rs = pre ++ [lst] /\
    Forall (fun r => terminal r = false) pre /\
    (length rs <= 40)%nat /\
    (terminal lst = false -> length rs = 40%nat).
Proof.
  split; [reflexivity|].
  apply (skill_runs_until_terminal_or_40_steps (Ext := sample_world)).
  reflexivity.
Defined.

Lemma episode_makes_500_selector_steps_witness :
  (forall s w',
      valid_action
        (action (fst (getAction (Externals := sample_world) (pop_member 0) s w')))
      = true) /\
  let o := run_episode (Ext := sample_world) (pop_member 0)
             (sample_locals, 0%nat) 0%nat in
  exists l' ex,
    result o = Ok (l', (0 + 500)%nat) /\
    getAction_calls (pop_member 0) (events o) = 500%nat /\
    learn_calls (events o) = [(pop_member 0, ex)] /\
    experience_lengths ex 500.
Proof.
  split; [intros s w'; reflexivity|].
  apply (episode_makes_500_selector_steps (Ext := sample_world) 0
           (sample_locals, 0%nat) 0%nat).
  intros s w'. reflexivity.
Defined.

Lemma terminal_step_rewards_witness :
  truthy (PyBool true) || truthy (PyBool false) = true /\
  StabilizeSkill.skill_reward S sample_stabilize sample_observation (7 # 1)
    (PyBool true) (PyBool false) tt
  = (Ok (StepResult sample_observation (-100 # 1) (PyBool true)
           (PyBool false) tt),
     StabilizeSkill.mkSelf 0%nat 0 (StabilizeSkill.mkHistory [] [] [])) /\
  CenterSkill.skill_reward S sample_center sample_observation (7 # 1)
    (PyBool true) (PyBool false) tt
  = (Ok (StepResult sample_observation (-1000 # 1) (PyBool true)
           (PyBool false) tt),
     CenterSkill.mkSelf 0%nat 0 (CenterSkill.mkHistory [] [])) /\
  LandingSkill.skill_reward sample_landing sample_observation (7 # 1)
    (PyBool true) (PyBool false) tt
  = (Ok (StepResult sample_observation (7 # 1) (PyBool true)
           (PyBool false) tt),
     sample_landing).
Proof.
  split; [reflexivity|].
  apply (terminal_step_rewards nat unit S sample_stabilize sample_center
           sample_landing sample_observation (7 # 1)
           (PyBool true) (PyBool false) tt).
  reflexivity.
Defined.

Lemma shaped_reward_from_history_witness :
  truthy (PyBool false) || truthy (PyBool false) = false /\
  (1 <= length (StabilizeSkill.x (StabilizeSkill.history sample_stabilize))
     <= 299)%nat /\
  last_item (StabilizeSkill.x (StabilizeSkill.history sample_stabilize))
    = Ok 0 /\
  last_item (StabilizeSkill.y (StabilizeSkill.history sample_stabilize))
    = Ok 1 /\
  last_item (StabilizeSkill.theta (StabilizeSkill.history sample_stabilize))
    = Ok 0 /\
  (1 <= length (CenterSkill.y (CenterSkill.history sample_center))
     <= 299)%nat /\
  last_item (CenterSkill.y (CenterSkill.history sample_center)) = Ok 1 /\
  last_item (CenterSkill.theta (CenterSkill.history sample_center)) = Ok 0 /\
  (exists rw,
      StabilizeSkill.skill_reward S sample_stabilize sample_observation
        (7 # 1) (PyBool false) (PyBool false) tt
      = (Ok (StepResult sample_observation rw (PyInt 0) (PyInt 0) tt),
         StabilizeSkill.mkSelf 0%nat 0
           (StabilizeSkill.mkHistory [0; 1 # 2] [1; 3 # 2] [0; 1 # 10])) /\
      rw == 1 - (10 * Qabs (0 - (1 # 2))) ^ 2
              - (10 * Qabs (1 - (3 # 2))) ^ 2
              - (10 * Qabs (0 - (1 # 10))) ^ 2) /\
  (exists rw,
      CenterSkill.skill_reward S sample_center sample_observation
        (7 # 1) (PyBool false) (PyBool false) tt
      = (Ok (StepResult sample_observation rw (PyInt 0) (PyInt 0) tt),
         CenterSkill.mkSelf 0%nat 0
           (CenterSkill.mkHistory [1; 3 # 2] [0; 1 # 10])) /\
      rw == 1 - (2 * Qabs (0 - (1 # 2))) ^ 2
              - (10 * Qabs (1 - (3 # 2))) ^ 2
              - (10 * Qabs (0 - (1 # 10))) ^ 2) /\
  StabilizeSkill.skill_reward S
      (StabilizeSkill.mkSelf 5%nat 0 (StabilizeSkill.mkHistory [] [] []))
      sample_observation (7 # 1) (PyBool false) (PyBool false) tt
    = (Ok (StepResult sample_observation 1 (PyInt 0) (PyInt 0) tt),
       StabilizeSkill.mkSelf 5%nat 0
         (StabilizeSkill.mkHistory [1 # 2] [3 # 2] [1 # 10])) /\
  CenterSkill.skill_reward S
      (CenterSkill.mkSelf 5%nat 0 (CenterSkill.mkHistory [] []))
      sample_observation (7 # 1) (PyBool false) (PyBool false) tt
    = (Ok (StepResult sample_observation 1 (PyInt 0) (PyInt 0) tt),
       CenterSkill.mkSelf 5%nat 0 (CenterSkill.mkHistory [3 # 2] [1 # 10])).
Proof.
  repeat (split; [first [reflexivity | simpl; lia]|]).
  apply (shaped_reward_from_history nat unit S sample_stabilize sample_center
           5%nat 0 0 sample_observation (7 # 1) (PyBool false) (PyBool false)
           tt 0 1 0 1 0);
    first [reflexivity | simpl; lia].
Defined.

Lemma landing_reward_stateless_witness :
  truthy (PyBool false) || truthy (PyBool false) = false /\
  exists rw,
    fst (LandingSkill.skill_reward
           (calls landing_call (LandingSkill.init 0%nat) sample_calls)
           sample_observation (7 # 1) (PyBool false) (PyBool false) tt)
    = Ok (StepResult sample_observation rw (PyInt 0) (PyInt 0) tt) /\
    rw == 1 - Qabs (0 - (1 # 2)) ^ 2 - Qabs (0 - (3 # 2)) ^ 2
            - Qabs (0 - (1 # 10)).
Proof.
  split; [reflexivity|].
  apply (proj1 (landing_reward_stateless nat unit 0%nat 0%nat sample_calls []
                  sample_observation (7 # 1) (PyBool false) (PyBool false)
                  tt)).
  reflexivity.
Defined.

Lemma history_capped_at_300_witness :
  nonterminal sample_call = true /\
  length (StabilizeSkill.x
            (StabilizeSkill.history
               (calls (stabilize_call S) (StabilizeSkill.init 0%nat)
                  sample_calls))) = 300%nat /\
  length (CenterSkill.y
            (CenterSkill.history
               (calls (center_call S) (CenterSkill.init 0%nat)
                  sample_calls))) = 300%nat /\
  forallb nonterminal sample_calls = true /\
  (length sample_calls <= 300)%nat /\
  fst (stabilize_call S
         (calls (stabilize_call S) (StabilizeSkill.init 0%nat) sample_calls)
         sample_call)
  = Ok (StepResult sample_observation (10 # 1) (PyBool true) (PyInt 0) tt) /\
  fst (center_call S
         (calls (center_call S) (CenterSkill.init 0%nat) sample_calls)
         sample_call)
  = Ok (StepResult sample_observation (10 # 1) (PyBool true) (PyInt 0) tt) /\
  StabilizeSkill.env
    (snd (stabilize_call S
            (calls (stabilize_call S) (StabilizeSkill.init 0%nat)
               sample_calls)
            sample_call)) = 1%nat.
Proof.
  assert (Hn : nonterminal sample_call = true) by reflexivity.
  assert (Hs : length (StabilizeSkill.x
                  (StabilizeSkill.history
                     (calls (stabilize_call S) (StabilizeSkill.init 0%nat)
                        sample_calls))) = 300%nat)
    by (vm_compute; reflexivity).
  assert (Hc : length (CenterSkill.y
                  (CenterSkill.history
                     (calls (center_call S) (CenterSkill.init 0%nat)
                        sample_calls))) = 300%nat)
    by (vm_compute; reflexivity).
  destruct (history_capped_at_300 nat unit S 0%nat sample_calls sample_call)
    as (_ & Hstab & Hcen & _).
  split; [exact Hn|]. split; [exact Hs|]. split; [exact Hc|].
  split; [vm_compute; reflexivity|].
  split; [unfold sample_calls; rewrite repeat_length; lia|].
  split; [now rewrite (Hstab Hn Hs)|].
  split; [now rewrite (Hcen Hn Hc)|].
  rewrite (Hstab Hn Hs). vm_compute. reflexivity.
Defined.

(** * Further properties of the reward-shaping wrappers *)

Lemma Qabs_zero_iff (d : Q) : Qabs d == 0 <-> d == 0.
Proof.
  split; intros H.
  - pose proof (Qle_Qabs d) as H1. pose proof (Qle_Qabs (- d)) as H2.
    rewrite Qabs_opp in H2. lra.
  - rewrite H. reflexivity.
Qed.

Lemma Qsquare_nonneg (q : Q) : 0 <= q ^ 2.
Proof. simpl. nra. Qed.

Lemma Qsquare_zero_iff (q : Q) : q ^ 2 == 0 <-> q == 0.
Proof.
  simpl. split; intros H.
  - destruct (Qmult_integral _ _ H); assumption.
  - rewrite H. reflexivity.
Qed.

(** A squared, scaled distance vanishes exactly when the two points agree. *)
Lemma penalty_zero_iff (k a b : Q) :
  0 < k -> ((Qabs (a - b) * k) ^ 2 == 0 <-> a == b).
Proof.
  intros Hk. rewrite Qsquare_zero_iff. split; intros H.
  - assert (Hd : a - b == 0); [|lra].
    apply Qabs_zero_iff. destruct (Qmult_integral _ _ H); [assumption|lra].
  - assert (Hd : a - b == 0) by lra. rewrite Hd. reflexivity.
Qed.

Lemma three_penalties (a b c : Q) :
  0 <= a -> 0 <= b -> 0 <= c ->
  1 - a - b - c <= 1 /\
  (1 - a - b - c == 1 <-> a == 0 /\ b == 0 /\ c == 0).
Proof.
  intros. split; [lra|].
  split; [intros; repeat split; lra | intros (? & ? & ?); lra].
Qed.

Lemma last_item_ok_nonempty {A : Type} (l : list A) (a : A) :
  last_item l = Ok a -> (length l =? 0)%nat = false.
Proof. destruct l; [discriminate|reflexivity]. Qed.

Section WrapperExtras.

Variable Env : Type.
Variable Info : Type.
Variable env_reset : Env -> Env.

(** A non-terminal step on a history that is not empty and not full. *)
Lemma stabilize_shaped (s : StabilizeSkill.self Env) o r te tr (i : Info)
    (xp yp tp : Q) :
  truthy te || truthy tr = false ->
  last_item (StabilizeSkill.x (StabilizeSkill.history s)) = Ok xp ->
  last_item (StabilizeSkill.y (StabilizeSkill.history s)) = Ok yp ->
  last_item (StabilizeSkill.theta (StabilizeSkill.history s)) = Ok tp ->
  (length (StabilizeSkill.x (StabilizeSkill.history s)) < 300)%nat ->
  StabilizeSkill.skill_reward env_reset s o r te tr i
  = (Ok (StepResult o
           (1 - (Qabs (xp - ob0 o) * 10) ^ 2 - (Qabs (yp - ob1 o) * 10) ^ 2
              - (Qabs (tp - ob4 o) * 10) ^ 2)
           (PyInt 0) (PyInt 0) i),
     StabilizeSkill.mkSelf (StabilizeSkill.env s)
       (StabilizeSkill.theta_level s)
       (StabilizeSkill.mkHistory
          (StabilizeSkill.x (StabilizeSkill.history s) ++ [ob0 o])
          (StabilizeSkill.y (StabilizeSkill.history s) ++ [ob1 o])
          (StabilizeSkill.theta (StabilizeSkill.history s) ++ [ob4 o]))).
Proof.
  intros Hf Hx Hy Ht Hlen. unfold StabilizeSkill.skill_reward.
  rewrite Hf, (last_item_ok_nonempty _ _ Hx), Hx, Hy, Ht.
  cbv beta iota zeta.
  destruct (300 <? _)%nat eqn:E; [|reflexivity].
  apply Nat.ltb_lt in E. simpl in E. rewrite length_app in E. simpl in E.
  lia.
Qed.

Lemma center_shaped (s : CenterSkill.self Env) o r te tr (i : Info)
    (yp tp : Q) :
  truthy te || truthy tr = false ->
  last_item (CenterSkill.y (CenterSkill.history s)) = Ok yp ->
  last_item (CenterSkill.theta (CenterSkill.history s)) = Ok tp ->
  (length (CenterSkill.y (CenterSkill.history s)) < 300)%nat ->
  CenterSkill.skill_reward env_reset s o r te tr i
  = (Ok (StepResult o
           (1 - Qabs ((CenterSkill.x_center s - ob0 o) * 2) ^ 2
              - (Qabs (yp - ob1 o) * 10) ^ 2
              - (Qabs (tp - ob4 o) * 10) ^ 2)
           (PyInt 0) (PyInt 0) i),
     CenterSkill.mkSelf (CenterSkill.env s) (CenterSkill.x_center s)
       (CenterSkill.mkHistory
          (CenterSkill.y (CenterSkill.history s) ++ [ob1 o])
          (CenterSkill.theta (CenterSkill.history s) ++ [ob4 o]))).
Proof.
  intros Hf Hy Ht Hlen. unfold CenterSkill.skill_reward.
  rewrite Hf, (last_item_ok_nonempty _ _ Hy), Hy, Ht.
  cbv beta iota zeta.
  destruct (300 <? _)%nat eqn:E; [|reflexivity].
  apply Nat.ltb_lt in E. simpl in E. rewrite length_app in E. simpl in E.
  lia.
Qed.

(** Below the cap, a non-terminal step appends the observation and changes
    nothing else of the wrapper. *)
Lemma stabilize_appends (s : StabilizeSkill.self Env) (c : call_args Info) :
  stabilize_consistent s ->
  nonterminal c = true ->
  (length (StabilizeSkill.x (StabilizeSkill.history s)) < 300)%nat ->
  snd (stabilize_call env_reset s c)
  = StabilizeSkill.mkSelf (StabilizeSkill.env s)
      (StabilizeSkill.theta_level s)
      (StabilizeSkill.mkHistory
         (StabilizeSkill.x (StabilizeSkill.history s)
            ++ [ob0 (ca_observation c)])
         (StabilizeSkill.y (StabilizeSkill.history s)
            ++ [ob1 (ca_observation c)])
         (StabilizeSkill.theta (StabilizeSkill.history s)
            ++ [ob4 (ca_observation c)])).
Proof.
  intros [Hy Ht] Hn Hlt. apply negb_true_iff in Hn. unfold stabilize_call.
  destruct (length (StabilizeSkill.x (StabilizeSkill.history s)) =? 0)%nat
    eqn:E.
  - unfold StabilizeSkill.skill_reward. rewrite Hn, E. reflexivity.
  - destruct (last_item_nonempty _ E) as [xp Hxp].
    destruct (last_item_same_length _ _ Hy E) as [yp Hyp].
    destruct (last_item_same_length _ _ Ht E) as [tp Htp].
    now rewrite (stabilize_shaped s _ _ _ _ _ xp yp tp Hn Hxp Hyp Htp Hlt).
Qed.

Lemma center_appends (s : CenterSkill.self Env) (c : call_args Info) :
  center_consistent s ->
  nonterminal c = true ->
  (length (CenterSkill.y (CenterSkill.history s)) < 300)%nat ->
  snd (center_call env_reset s c)
  = CenterSkill.mkSelf (CenterSkill.env s) (CenterSkill.x_center s)
      (CenterSkill.mkHistory
         (CenterSkill.y (CenterSkill.history s) ++ [ob1 (ca_observation c)])
         (CenterSkill.theta (CenterSkill.history s)
            ++ [ob4 (ca_observation c)])).
Proof.
  intros Ht Hn Hlt. apply negb_true_iff in Hn. unfold center_call.
  destruct (length (CenterSkill.y (CenterSkill.history s)) =? 0)%nat eqn:E.
  - unfold CenterSkill.skill_reward. rewrite Hn, E. reflexivity.
  - destruct (last_item_nonempty _ E) as [yp Hyp].
    destruct (last_item_same_length _ _ Ht E) as [tp Htp].
    now rewrite (center_shaped s _ _ _ _ _ yp tp Hn Hyp Htp Hlt).
Qed.

(** X1.  On a non-terminal step below the cap, the shaped reward of
    [StabilizeSkill] and of [CenterSkill] is at most 1, and it is exactly 1
    whenever x, y and theta equal the previous entries (for [CenterSkill]:
    whenever x is [x_center] and y and theta equal the previous entries). *)
Theorem shaped_reward_peaks_when_still
    (ss : StabilizeSkill.self Env) (sc : CenterSkill.self Env)
    (o : Observation) (r : Q) (te tr : pyflag) (i : Info)
    (x_prev y_prev theta_prev cy_prev ctheta_prev : Q) :
  truthy te || truthy tr = false ->
  (length (StabilizeSkill.x (StabilizeSkill.history ss)) < 300)%nat ->
  last_item (StabilizeSkill.x (StabilizeSkill.history ss)) = Ok x_prev ->
  last_item (StabilizeSkill.y (StabilizeSkill.history ss)) = Ok y_prev ->
  last_item (StabilizeSkill.theta (StabilizeSkill.history ss))
    = Ok theta_prev ->
  (length (CenterSkill.y (CenterSkill.history sc)) < 300)%nat ->
  last_item (CenterSkill.y (CenterSkill.history sc)) = Ok cy_prev ->
  last_item (CenterSkill.theta (CenterSkill.history sc)) = Ok ctheta_prev ->
  (exists rw,
      fst (StabilizeSkill.skill_reward env_reset ss o r te tr i)
      = Ok (StepResult o rw (PyInt 0) (PyInt 0) i) /\
      rw <= 1 /\
      (x_prev == ob0 o -> y_prev == ob1 o -> theta_prev == ob4 o ->
       rw == 1)) /\
  (exists rw,
      fst (CenterSkill.skill_reward env_reset sc o r te tr i)
      = Ok (StepResult o rw (PyInt 0) (PyInt 0) i) /\
      rw <= 1 /\
      (CenterSkill.x_center sc == ob0 o -> cy_prev == ob1 o ->
       ctheta_prev == ob4 o -> rw == 1)).
Proof.
  intros Hf Hlen Hx Hy Ht Hclen Hcy Hct. split.
  - rewrite (stabilize_shaped ss o r te tr i _ _ _ Hf Hx Hy Ht Hlen).
    eexists. split; [reflexivity|].
    destruct (three_penalties _ _ _
                (Qsquare_nonneg (Qabs (x_prev - ob0 o) * 10))
                (Qsquare_nonneg (Qabs (y_prev - ob1 o) * 10))
                (Qsquare_nonneg (Qabs (theta_prev - ob4 o) * 10)))
      as [Hle Heq].
    split; [exact Hle|]. intros H1 H2 H3. apply Heq.
    rewrite !penalty_zero_iff by reflexivity. now repeat split.
  - rewrite (center_shaped sc o r te tr i _ _ Hf Hcy Hct Hclen).
    eexists. split; [reflexivity|].
    destruct (three_penalties _ _ _
                (Qsquare_nonneg (Qabs ((CenterSkill.x_center sc - ob0 o) * 2)))
                (Qsquare_nonneg (Qabs (cy_prev - ob1 o) * 10))
                (Qsquare_nonneg (Qabs (ctheta_prev - ob4 o) * 10)))
      as [Hle Heq].
    split; [exact Hle|]. intros H1 H2 H3. apply Heq.
    rewrite !penalty_zero_iff by reflexivity.
    rewrite Qsquare_zero_iff, Qabs_zero_iff.
    repeat split; try assumption. rewrite H1. ring.
Qed.

(** X2.  On a non-terminal step the reward of [LandingSkill] is at most 1,
    and it is exactly 1 at x = 0, y = 0, theta = 0. *)
Theorem landing_reward_peaks_on_the_pad
    (e : Env) (o : Observation) (r : Q) (te tr : pyflag) (i : Info) :
  truthy te || truthy tr = false ->
  exists rw,
    fst (LandingSkill.skill_reward (LandingSkill.init e) o r te tr i)
    = Ok (StepResult o rw (PyInt 0) (PyInt 0) i) /\
    rw <= 1 /\
    (ob0 o == 0 -> ob1 o == 0 -> ob4 o == 0 -> rw == 1).
Proof.
  intros Hf. unfold LandingSkill.skill_reward. rewrite Hf.
  cbv beta iota zeta. eexists. split; [reflexivity|].
  change (LandingSkill.x_landing (LandingSkill.init e)) with 0.
  change (LandingSkill.y_landing (LandingSkill.init e)) with 0.
  change (LandingSkill.theta_level (LandingSkill.init e)) with 0.
  destruct (three_penalties _ _ _
              (Qsquare_nonneg (Qabs (0 - ob0 o)))
              (Qsquare_nonneg (Qabs (0 - ob1 o)))
              (Qabs_nonneg (0 - ob4 o)))
    as [Hle Heq].
  split; [exact Hle|]. intros H1 H2 H3. apply Heq.
  rewrite !Qsquare_zero_iff, !Qabs_zero_iff.
  repeat split; lra.
Qed.

(** X3.  Two non-terminal steps in a row, below the cap: the reward of the
    second compares its observation with the observation of the first,
    whatever the history held before. *)
Theorem reward_compares_consecutive_observations
    (ss : StabilizeSkill.self Env) (sc : CenterSkill.self Env)
    (c1 c2 : call_args Info) :
  stabilize_consistent ss ->
  center_consistent sc ->
  nonterminal c1 = true ->
  nonterminal c2 = true ->
  (length (StabilizeSkill.x (StabilizeSkill.history ss)) <= 298)%nat ->
  (length (CenterSkill.y (CenterSkill.history sc)) <= 298)%nat ->
  (exists rw,
      fst (stabilize_call env_reset (snd (stabilize_call env_reset ss c1)) c2)
      = Ok (StepResult (ca_observation c2) rw (PyInt 0) (PyInt 0)
              (ca_info c2)) /\
      rw == 1
            - (10 * Qabs (ob0 (ca_observation c1)
                          - ob0 (ca_observation c2))) ^ 2
            - (10 * Qabs (ob1 (ca_observation c1)
                          - ob1 (ca_observation c2))) ^ 2
            - (10 * Qabs (ob4 (ca_observation c1)
                          - ob4 (ca_observation c2))) ^ 2) /\
  (exists rw,
      fst (center_call env_reset (snd (center_call env_reset sc c1)) c2)
      = Ok (StepResult (ca_observation c2) rw (PyInt 0) (PyInt 0)
              (ca_info c2)) /\
      rw == 1
            - (2 * Qabs (CenterSkill.x_center sc
                         - ob0 (ca_observation c2))) ^ 2
            - (10 * Qabs (ob1 (ca_observation c1)
                          - ob1 (ca_observation c2))) ^ 2
            - (10 * Qabs (ob4 (ca_observation c1)
                          - ob4 (ca_observation c2))) ^ 2).
Proof.
  intros Hs Hc Hn1 Hn2 Hls Hlc. split.
  - rewrite (stabilize_appends ss c1 Hs Hn1) by lia.
    unfold stabilize_call at 1.
    erewrite stabilize_shaped;
      [| now apply negb_true_iff
       | simpl; apply last_item_snoc
       | simpl; apply last_item_snoc
       | simpl; apply last_item_snoc
       | simpl; rewrite length_app; simpl; lia ].
    eexists. split; [reflexivity|]. ring.
  - rewrite (center_appends sc c1 Hc Hn1) by lia.
    unfold center_call at 1.
    erewrite center_shaped;
      [| now apply negb_true_iff
       | simpl; apply last_item_snoc
       | simpl; apply last_item_snoc
       | simpl; rewrite length_app; simpl; lia ].
    eexists. split; [reflexivity|]. cbn [CenterSkill.x_center fst].
    rewrite Qabs_Qmult.
    setoid_replace (Qabs 2) with 2 by reflexivity.
    ring.
Qed.

(** X4.  A terminated or truncated base step restarts the comparison: after
    it, whatever the wrapper held, the next non-terminal step is paid
    exactly 1 and starts a new history with its own observation. *)
Theorem terminal_step_restarts_the_comparison
    (ss : StabilizeSkill.self Env) (sc : CenterSkill.self Env)
    (c1 c2 : call_args Info) :
  nonterminal c1 = false ->
  nonterminal c2 = true ->
  stabilize_call env_reset (snd (stabilize_call env_reset ss c1)) c2
  = (Ok (StepResult (ca_observation c2) 1 (PyInt 0) (PyInt 0) (ca_info c2)),
     StabilizeSkill.mkSelf (StabilizeSkill.env ss)
       (StabilizeSkill.theta_level ss)
       (StabilizeSkill.mkHistory [ob0 (ca_observation c2)]
          [ob1 (ca_observation c2)] [ob4 (ca_observation c2)])) /\
  center_call env_reset (snd (center_call env_reset sc c1)) c2
  = (Ok (StepResult (ca_observation c2) 1 (PyInt 0) (PyInt 0) (ca_info c2)),
     CenterSkill.mkSelf (CenterSkill.env sc) (CenterSkill.x_center sc)
       (CenterSkill.mkHistory [ob1 (ca_observation c2)]
          [ob4 (ca_observation c2)])).
Proof.
  intros Hn1 Hn2.
  apply negb_false_iff in Hn1. apply negb_true_iff in Hn2.
  unfold stabilize_call, center_call, StabilizeSkill.skill_reward,
    CenterSkill.skill_reward.
  rewrite Hn1. cbn [snd]. rewrite Hn2. split; reflexivity.
Qed.

(** Where an uninterrupted run of non-terminal steps stands: [q] caps
    behind it and [r] entries in the history. *)
Lemma stabilize_run_position (e : Env) (cs : list (call_args Info)) :
  forallb nonterminal cs = true ->
  exists q r,
    length cs = (301 * q + r)%nat /\ (r <= 300)%nat /\
    StabilizeSkill.env
      (calls (stabilize_call env_reset) (StabilizeSkill.init e) cs)
    = Nat.iter q env_reset e /\
    length (StabilizeSkill.x
              (StabilizeSkill.history
                 (calls (stabilize_call env_reset)
                    (StabilizeSkill.init e) cs))) = r.
Proof.
  induction cs as [|c cs IH] using rev_ind; intros H.
  - exists 0%nat, 0%nat. repeat split. simpl. lia.
  - rewrite forallb_app in H. apply andb_true_iff in H.
    destruct H as [Hcs Hc]. simpl in Hc. rewrite andb_true_r in Hc.
    destruct (IH Hcs) as (q & r & Hlen & Hr & Henv & Hx).
    destruct (stabilize_inv_calls Env Info env_reset e cs) as [Hcons _].
    rewrite calls_snoc, length_app. simpl.
    destruct (Nat.eq_dec r 300) as [E|E].
    + exists (S q), 0%nat.
      rewrite (stabilize_cap Env Info env_reset _ c Hcons Hc)
        by (rewrite Hx; exact E).
      simpl. rewrite Henv. repeat split; lia.
    + exists q, (S r).
      rewrite (stabilize_appends _ c Hcons Hc) by lia.
      simpl. rewrite length_app, Hx. simpl. repeat split; try lia.
      exact Henv.
Qed.

Lemma center_run_position (e : Env) (cs : list (call_args Info)) :
  forallb nonterminal cs = true ->
  exists q r,
    length cs = (301 * q + r)%nat /\ (r <= 300)%nat /\
    CenterSkill.env (calls (center_call env_reset) (CenterSkill.init e) cs)
    = Nat.iter q env_reset e /\
    length (CenterSkill.y
              (CenterSkill.history
                 (calls (center_call env_reset) (CenterSkill.init e) cs)))
    = r.
Proof.
  induction cs as [|c cs IH] using rev_ind; intros H.
  - exists 0%nat, 0%nat. repeat split. simpl. lia.
  - rewrite forallb_app in H. apply andb_true_iff in H.
    destruct H as [Hcs Hc]. simpl in Hc. rewrite andb_true_r in Hc.
    destruct (IH Hcs) as (q & r & Hlen & Hr & Henv & Hy).
    destruct (center_inv_calls Env Info env_reset e cs) as [Hcons _].
    rewrite calls_snoc, length_app. simpl.
    destruct (Nat.eq_dec r 300) as [E|E].
    + exists (S q), 0%nat.
      rewrite (center_cap Env Info env_reset _ c Hcons Hc)
        by (rewrite Hy; exact E).
      simpl. rewrite Henv. repeat split; lia.
    + exists q, (S r).
      rewrite (center_appends _ c Hcons Hc) by lia.
      simpl. rewrite length_app, Hy. simpl. repeat split; try lia.
      exact Henv.
Qed.

(** X5.  An uninterrupted run of non-terminal steps on a fresh
    [StabilizeSkill] or [CenterSkill] is cut into episodes of exactly 301
    steps: after [n] such steps the base environment has been reset
    [n / 301] times and the history holds [n mod 301] entries. *)
Theorem uninterrupted_run_is_cut_every_301_steps
    (e : Env) (cs : list (call_args Info)) :
  forallb nonterminal cs = true ->
  let ss := calls (stabilize_call env_reset) (StabilizeSkill.init e) cs in
  let sc := calls (center_call env_reset) (CenterSkill.init e) cs in
  StabilizeSkill.env ss = Nat.iter (length cs / 301) env_reset e /\
  length (StabilizeSkill.x (StabilizeSkill.history ss))
  = (length cs mod 301)%nat /\
  CenterSkill.env sc = Nat.iter (length cs / 301) env_reset e /\
  length (CenterSkill.y (CenterSkill.history sc)) = (length cs mod 301)%nat.
Proof.
  intros H ss sc.
  destruct (stabilize_run_position e cs H) as (q & r & Hlen & Hr & He & Hx).
  destruct (center_run_position e cs H) as (q' & r' & Hlen' & Hr' & He' & Hy).
  assert (Hq : q = (length cs / 301)%nat)
    by (apply (Nat.div_unique _ 301 q r); lia).
  assert (Hm : r = (length cs mod 301)%nat)
    by (apply (Nat.mod_unique _ 301 q r); lia).
  assert (Hq' : q' = (length cs / 301)%nat)
    by (apply (Nat.div_unique _ 301 q' r'); lia).
  assert (Hm' : r' = (length cs mod 301)%nat)
    by (apply (Nat.mod_unique _ 301 q' r'); lia).
  clear Hlen Hlen' Hr Hr'. subst q r q' r'. subst ss sc.
  repeat split; assumption.
Qed.

Lemma stabilize_env_after (s : StabilizeSkill.self Env)
    (c : call_args Info) :
  stabilize_inv s ->
  StabilizeSkill.env (snd (stabilize_call env_reset s c))
  = (if nonterminal c
        && (length (StabilizeSkill.x (StabilizeSkill.history s)) =? 300)%nat
     then env_reset (StabilizeSkill.env s) else StabilizeSkill.env s) /\
  StabilizeSkill.theta_level (snd (stabilize_call env_reset s c))
  = StabilizeSkill.theta_level s.
Proof.
  intros [Hs Hl]. destruct (nonterminal c) eqn:Hn; cbn [andb].
  - destruct (Nat.eqb_spec
                (length (StabilizeSkill.x (StabilizeSkill.history s))) 300)
      as [E|E].
    + rewrite (stabilize_cap Env Info env_reset s c Hs Hn E). now split.
    + rewrite (stabilize_appends s c Hs Hn) by lia. now split.
  - apply negb_false_iff in Hn.
    unfold stabilize_call, StabilizeSkill.skill_reward. rewrite Hn.
    now split.
Qed.

Lemma center_env_after (s : CenterSkill.self Env) (c : call_args Info) :
  center_inv s ->
  CenterSkill.env (snd (center_call env_reset s c))
  = (if nonterminal c
        && (length (CenterSkill.y (CenterSkill.history s)) =? 300)%nat
     then env_reset (CenterSkill.env s) else CenterSkill.env s) /\
  CenterSkill.x_center (snd (center_call env_reset s c))
  = CenterSkill.x_center s.
Proof.
  intros [Hs Hl]. destruct (nonterminal c) eqn:Hn; cbn [andb].
  - destruct (Nat.eqb_spec
                (length (CenterSkill.y (CenterSkill.history s))) 300)
      as [E|E].
    + rewrite (center_cap Env Info env_reset s c Hs Hn E). now split.
    + rewrite (center_appends s c Hs Hn) by lia. now split.
  - apply negb_false_iff in Hn.
    unfold center_call, CenterSkill.skill_reward. rewrite Hn.
    now split.
Qed.

(** X6.  On a wrapper built by [__init__], whatever calls it has served, a
    call of [skill_reward] resets the base environment exactly when it is a
    non-terminal step that finds 300 entries; a terminated or truncated
    step never does.  The targets [theta_level] and [x_center] stay 0. *)
Theorem environment_is_reset_only_at_the_cap
    (e : Env) (cs : list (call_args Info)) (c : call_args Info) :
  let ss := calls (stabilize_call env_reset) (StabilizeSkill.init e) cs in
  let sc := calls (center_call env_reset) (CenterSkill.init e) cs in
  StabilizeSkill.env (snd (stabilize_call env_reset ss c))
  = (if nonterminal c
        && (length (StabilizeSkill.x (StabilizeSkill.history ss)) =? 300)%nat
     then env_reset (StabilizeSkill.env ss) else StabilizeSkill.env ss) /\
  CenterSkill.env (snd (center_call env_reset sc c))
  = (if nonterminal c
        && (length (CenterSkill.y (CenterSkill.history sc)) =? 300)%nat
     then env_reset (CenterSkill.env sc) else CenterSkill.env sc) /\
  StabilizeSkill.theta_level (snd (stabilize_call env_reset ss c)) = 0 /\
  CenterSkill.x_center (snd (center_call env_reset sc c)) = 0.
Proof.
  intros ss sc.
  destruct (stabilize_env_after ss c
              (stabilize_inv_calls Env Info env_reset e cs)) as [He _].
  destruct (center_env_after sc c
              (center_inv_calls Env Info env_reset e cs)) as [He' _].
  split; [exact He|]. split; [exact He'|].
  subst ss sc.
  rewrite <- (calls_snoc (stabilize_call env_reset)),
          <- (calls_snoc (center_call env_reset)).
  split.
  - apply (calls_invariant (stabilize_call env_reset)
             (fun s => StabilizeSkill.theta_level s = 0));
      [|reflexivity].
    intros s c0 H0.
    unfold stabilize_call, StabilizeSkill.skill_reward.
    repeat match goal with
    | |- context [if ?b then _ else _] => destruct b
    | |- context [match last_item ?l with _ => _ end] =>
        destruct (last_item l)
    end; exact H0.
  - apply (calls_invariant (center_call env_reset)
             (fun s => CenterSkill.x_center s = 0));
      [|reflexivity].
    intros s c0 H0.
    unfold center_call, CenterSkill.skill_reward.
    repeat match goal with
    | |- context [if ?b then _ else _] => destruct b
    | |- context [match last_item ?l with _ => _ end] =>
        destruct (last_item l)
    end; exact H0.
Qed.

End WrapperExtras.

(** * Further properties of the selector training loop *)

Lemma dict_get_raises_KeyError {V : Type} (d : list (Z * V)) (k : Z)
    (e : exn) :
  dict_get d k = Raise e -> e = KeyError.
Proof.
  induction d as [|[k' v] d IH]; simpl.
  - now intros [= <-].
  - destruct (k' =? k)%Z; [discriminate|exact IH].
Qed.

(** X7.  The keys of [trained_skills] are exactly the actions of a discrete
    action space of size [action_dim = len(trained_skills)]: an action is a
    key if and only if it lies in 0 .. action_dim - 1. *)
Theorem keys_are_the_action_range (a : Z) :
  valid_action a = true <-> (0 <= a < Z.of_nat action_dim)%Z.
Proof.
  unfold valid_action, action_dim, trained_skills. cbn [dict_get length].
  destruct (Z.eqb_spec 0 a); [split; [lia|reflexivity]|].
  destruct (Z.eqb_spec 1 a); [split; [lia|reflexivity]|].
  destruct (Z.eqb_spec 2 a); [split; [lia|reflexivity]|].
  split; [discriminate|lia].
Qed.

Lemma last_cons_default {A : Type} (l : list A) :
  forall a d : A, last (a :: l) d = last l a.
Proof.
  induction l as [|b l IH]; intros a d; [reflexivity|].
  change (last (a :: b :: l) d) with (last (b :: l) d).
  now rewrite !IH.
Qed.

Opaque trained_skills.

Section LoopExtras.

Context {World Info Tensor : Type} {Ext : Externals World Info Tensor}.

(** What the loop variables hold when a skill run is over. *)
Lemma execute_skill_final (who : agent_ref) (n : nat) :
  forall (l l' : locals) (w : World) (pre : list (vec_step Info))
         (lst : vec_step Info),
    result (execute_skill who n l w) = Ok l' ->
    step_results (events (execute_skill who n l w)) = pre ++ [lst] ->
    state l' = state_after_run (state l) pre lst /\
    next_state l' = Some (vs_next_state lst) /\
    termination l' = Some (vs_termination lst) /\
    truncation l' = Some (vs_truncation lst).
Proof.
  induction n as [|n IH]; intros l l' w pre lst R S.
  - simpl in S. now destruct pre.
  - destruct (execute_skill_step who n l w) as (pre0 & a & r & w' & Hpre & E).
    rewrite E in R, S. apply pre_has_no_step in Hpre.
    unfold after_step in R, S. destruct (terminal r) eqn:T.
    + cbn [result events fst] in R, S. injection R as <-.
      rewrite step_results_app, Hpre in S. simpl in S.
      destruct pre as [|p pre]; [|destruct pre; discriminate].
      injection S as <-. unfold state_after_run. rewrite T.
      repeat split.
    + cbn [result events fst] in R, S.
      rewrite !step_results_app, Hpre in S. simpl in S.
      destruct pre as [|p pre].
      * injection S as <- S.
        pose proof (execute_skill_shape who n
                      (Locals (vs_next_state r) (reward l + vs_reward r)
                         (Some (vs_next_state r)) (Some (vs_termination r))
                         (Some (vs_truncation r))) w') as Sh.
        rewrite S in Sh. simpl in Sh. apply Nat.eqb_eq in Sh. subst n.
        simpl in R. injection R as <-.
        unfold state_after_run. rewrite T. repeat split.
      * injection S as <- S.
        destruct (IH _ _ _ _ _ R S) as (H1 & H2 & H3 & H4).
        repeat split; try assumption.
        rewrite H1. unfold state_after_run. cbn [state map].
        destruct (terminal lst); [|reflexivity].
        now rewrite last_cons_default.
Qed.

(** A selector pass whose action is no key of [trained_skills]. *)
Lemma selector_step_stray (sel : agent_ref) (l : locals) (score : Q)
    (b : buffers Tensor) (w : World) :
  valid_action (action (fst (getAction sel (state l) w))) = false ->
  selector_step sel (l, score, b) w
  = Outcome (Raise KeyError) (snd (getAction sel (state l) w))
      [EvGetAction sel (state l) (fst (getAction sel (state l) w))].
Proof.
  intros V. destruct (getAction sel (state l) w) as [out w1] eqn:G.
  simpl in V |- *. unfold valid_action in V.
  destruct (dict_get trained_skills (action out)) as [entry|e] eqn:D;
    [discriminate|].
  pose proof (dict_get_raises_KeyError _ _ _ D) as ->.
  unfold selector_step, bind, call_getAction, lift.
  rewrite G. simpl. rewrite D. reflexivity.
Qed.

(** A selector pass on a key of [trained_skills], with what it records. *)
Lemma selector_step_ledger (sel : agent_ref) (l : locals) (score : Q)
    (b : buffers Tensor) (w : World) :
  valid_action (action (fst (getAction sel (state l) w))) = true ->
  exists out w1 entry l' pre lst,
    getAction sel (state l) w = (out, w1) /\
    dict_get trained_skills (action out) = Ok entry /\
    let o := execute_skill (agent entry) (skill_duration entry)
               (Locals (state l) 0 (next_state l) (termination l)
                       (truncation l)) w1 in
    step_results (events o) = pre ++ [lst] /\
    (length (pre ++ [lst]) <= 40)%nat /\
    state l' = state_after_run (state l) pre lst /\
    next_state l' = Some (vs_next_state lst) /\
    selector_step sel (l, score, b) w
    = Outcome
        (Ok (l', score + reward l',
             Buffers (states b ++ [state l'])
                     (actions b ++ [action out])
                     (log_probs b ++ [log_prob out])
                     (rewards b ++ [reward l'])
                     (terminations b ++ [vs_termination lst])
                     (values b ++ [value out])))
        (world o)
        (EvGetAction sel (state l) out :: events o).
Proof.
  intros V.
  destruct (selector_step_run sel l score b w V)
    as (out & w1 & entry & l' & t & G & D & H).
  cbv zeta in H. destruct H as (R & T & N & E).
  destruct (trained_skills_entry _ _ D) as [Hd _].
  pose proof (execute_skill_shape (agent entry) (skill_duration entry)
                (Locals (state l) 0 (next_state l) (termination l)
                        (truncation l)) w1) as Sh.
  apply run_shape_spec in Sh; [|rewrite Hd; lia].
  destruct Sh as (pre & lst & S & _ & L & _).
  destruct (execute_skill_final _ _ _ _ _ _ _ R S) as (F1 & F2 & F3 & _).
  exists out, w1, entry, l', pre, lst. cbv zeta.
  rewrite S, Hd in L.
  repeat (split; [assumption|]).
  rewrite E. rewrite F3 in T. injection T as <-. reflexivity.
Qed.

(** A selector pass only asks agents for actions and steps the
    environment. *)
Lemma selector_step_acts_only (sel : agent_ref)
    (v : locals * Q * buffers Tensor) :
  emits acts_only (selector_step sel v).
Proof.
  destruct v as [[l score] b]. unfold selector_step.
  apply emits_bind; [apply emits_getAction; intros; exact I|]. intros out.
  apply emits_bind; [apply emits_lift|]. intros entry.
  apply emits_bind.
  - apply emits_for_range_break. intros l0. unfold skill_step.
    apply emits_bind.
    + destruct (landed (state l0)).
      * apply emits_step. intros; exact I.
      * apply emits_bind; [apply emits_getAction; intros; exact I|].
        intros out0. apply emits_step. intros; exact I.
    + intros r. destruct (vs_termination r || vs_truncation r);
        apply emits_ret.
  - intros l'. apply emits_bind; [apply emits_name|].
    intros t. apply emits_ret.
Qed.

Lemma acts_only_quiet (evs : list (event Info Tensor)) :
  Forall acts_only evs ->
  learn_calls evs = [] /\ score_appends evs = [] /\
  steps_adds evs = [] /\ reset_count evs = 0%nat.
Proof.
  induction 1 as [|e evs He _ IH]; [repeat split|].
  destruct e; simpl in He |- *; try contradiction; exact IH.
Qed.

Lemma selector_loop_quiet (sel : agent_ref) (n : nat)
    (v : locals * Q * buffers Tensor) (w : World) :
  let evs := events (for_range n (selector_step sel) v w) in
  learn_calls evs = [] /\ score_appends evs = [] /\
  steps_adds evs = [] /\ reset_count evs = 0%nat.
Proof.
  apply acts_only_quiet.
  apply (emits_for_range acts_only n (selector_step sel)
           (selector_step_acts_only sel) v w).
Qed.

(** The outer loop raises nothing but [KeyError]. *)
Lemma selector_loop_raises_KeyError (sel : agent_ref) (n : nat) :
  forall (v : locals * Q * buffers Tensor) (w : World) (e : exn),
    result (for_range n (selector_step sel) v w) = Raise e -> e = KeyError.
Proof.
  induction n as [|n IH]; intros [[l score] b] w e R; [discriminate|].
  change (for_range (S n) (selector_step sel) (l, score, b) w)
    with (bind (selector_step sel (l, score, b))
               (for_range n (selector_step sel)) w) in R.
  unfold bind in R.
  destruct (valid_action (action (fst (getAction sel (state l) w)))) eqn:V.
  - destruct (selector_step_run sel l score b w V)
      as (out & w1 & entry & l1 & t & G & D & H).
    cbv zeta in H. destruct H as (_ & _ & _ & E).
    rewrite E in R. cbn [result world events] in R.
    exact (IH _ _ _ R).
  - rewrite (selector_step_stray sel l score b w V) in R.
    cbn [result] in R. now injection R as <-.
Qed.

(** Once a pass has been made, [next_state] is bound. *)
Lemma selector_loop_binds_next_state (sel : agent_ref) (n : nat) :
  forall (l l' : locals) (score score' : Q) (b b' : buffers Tensor)
         (w : World),
    result (for_range n (selector_step sel) (l, score, b) w)
    = Ok (l', score', b') ->
    (0 < n)%nat \/ next_state l <> None ->
    next_state l' <> None.
Proof.
  induction n as [|n IH]; intros l l' score score' b b' w R H.
  - destruct H as [H|H]; [lia|]. simpl in R. now injection R as <- _ _.
  - change (for_range (S n) (selector_step sel) (l, score, b) w)
      with (bind (selector_step sel (l, score, b))
                 (for_range n (selector_step sel)) w) in R.
    unfold bind in R.
    destruct (valid_action (action (fst (getAction sel (state l) w))))
      eqn:V.
    + destruct (selector_step_run sel l score b w V)
        as (out & w1 & entry & l1 & t & G & D & H1).
      cbv zeta in H1. destruct H1 as (_ & _ & N & E).
      rewrite E in R. cbn [result world events] in R.
      eapply IH; [exact R|]. now right.
    + rewrite (selector_step_stray sel l score b w V) in R.
      discriminate.
Qed.

(** An episode, by the way its 500 passes end. *)
Lemma run_episode_cases (sel : agent_ref) (l : locals) (total : nat)
    (w : World) :
  let lo := for_range 500 (selector_step sel)
              (Locals (fst (fst (env_reset w))) (reward l) (next_state l)
                      (termination l) (truncation l), 0, empty_buffers)
              (snd (env_reset w)) in
  match result lo with
  | Raise e =>
    run_episode sel (l, total) w
    = Outcome (Raise e) (world lo) (EvReset :: events lo)
  | Ok (l', score, b) =>
    match next_state l' with
    | Some nxt =>
      let ex := Experiences (states b) (actions b) (log_probs b)
                  (rewards b) (terminations b) (values b) nxt in
      run_episode sel (l, total) w
      = Outcome (Ok (l', (total + 500)%nat))
          (steps_add sel 500
             (learn sel ex (scores_append sel score (world lo))))
          (EvReset :: events lo
             ++ [EvScoresAppend sel score; EvLearn sel ex;
                 EvStepsAdd sel 500])
    | None =>
      run_episode sel (l, total) w
      = Outcome (Raise NameError) (scores_append sel score (world lo))
          (EvReset :: events lo ++ [EvScoresAppend sel score])
    end
  end.
Proof.
  unfold run_episode, bind, call_reset, call_scores_append, call_learn,
    call_steps_add, name, ret, raise.
  destruct (env_reset w) as [[st inf] w0].
  change (499 + 1)%nat with 500%nat.
  remember 500%nat as n eqn:Hn. cbn [result world events fst snd].
  destruct (for_range n (selector_step sel) _ w0) as [[[[l' score] b]|e] w1 evs];
    cbn [result world events]; [|reflexivity].
  destruct (next_state l') as [nxt|]; cbn [result world events app];
    reflexivity.
Qed.

Lemma getAction_outputs_app (who : agent_ref)
    (e1 e2 : list (event Info Tensor)) :
  getAction_outputs who (e1 ++ e2)
  = getAction_outputs who e1 ++ getAction_outputs who e2.
Proof.
  induction e1 as [|e e1 IH]; [reflexivity|].
  destruct e; simpl; try exact IH.
  destruct (agent_eqb who0 who); simpl; now rewrite IH.
Qed.

Lemma execute_skill_getAction_outputs (who sel : agent_ref) (n : nat) :
  agent_eqb who sel = false ->
  forall (l : locals) (w : World),
    getAction_outputs sel (events (execute_skill who n l w)) = [].
Proof.
  intros Hne. induction n as [|n IH]; intros l w; [reflexivity|].
  destruct (execute_skill_step who n l w) as (pre & a & r & w' & Hpre & E).
  rewrite E.
  assert (Hp : getAction_outputs sel pre = []).
  { destruct Hpre as [(_ & -> & _)|(_ & out & -> & _)];
      [reflexivity|]. simpl. now rewrite Hne. }
  destruct (terminal r); simpl.
  - rewrite getAction_outputs_app, Hp. reflexivity.
  - rewrite !getAction_outputs_app, Hp, IH. reflexivity.
Qed.

(** [n] passes of the outer loop of a selector whose actions are keys:
    what the lists, the score and the environment have seen. *)
Lemma selector_loop_ledger (i : nat) (n : nat) :
  (forall s w,
      valid_action (action (fst (getAction (pop_member i) s w))) = true) ->
  forall (l : locals) (score : Q) (b : buffers Tensor) (w : World),
  exists l' score' b' rs,
    let lo := for_range n (selector_step (pop_member i)) (l, score, b) w in
    let outs := getAction_outputs (pop_member i) (events lo) in
    result lo = Ok (l', score', b') /\
    actions b' = actions b ++ map action outs /\
    log_probs b' = log_probs b ++ map log_prob outs /\
    values b' = values b ++ map value outs /\
    rewards b' = rewards b ++ rs /\
    score' = fold_left Qplus rs score /\
    (n <= length (step_results (events lo)) <= 40 * n)%nat /\
    ((0 < n)%nat ->
     exists pre lst,
       step_results (events lo) = pre ++ [lst] /\
       next_state l' = Some (vs_next_state lst)).
Proof.
  intros V. induction n as [|n IH]; intros l score b w.
  - exists l, score, b, []. cbv zeta. simpl. rewrite !app_nil_r.
    repeat split; lia.
  - destruct (selector_step_ledger (pop_member i) l score b w (V _ _))
      as (out & w1 & entry & l1 & pre & lst & G & D & H).
    cbv zeta in H. destruct H as (S1 & L1 & _ & N1 & E).
    destruct (trained_skills_entry _ _ D) as [_ Hs].
    apply (skill_agent_is_not_selector _ i) in Hs.
    change (for_range (S n) (selector_step (pop_member i)) (l, score, b) w)
      with (bind (selector_step (pop_member i) (l, score, b))
                 (for_range n (selector_step (pop_member i))) w).
    unfold bind. rewrite E. cbn [result world events].
    match goal with
    | |- context [for_range n _ (l1, ?sc, ?b1) ?w2] =>
        destruct (IH l1 sc b1 w2)
          as (l' & score' & b' & rs & R & A & LP & VA & RW & SC & B & LS)
    end.
    cbv zeta in R, A, LP, VA, B, LS.
    exists l', score', b', (reward l1 :: rs). cbv zeta.
    rewrite R. split; [reflexivity|].
    rewrite getAction_outputs_app. cbn [getAction_outputs agent_eqb].
    rewrite Nat.eqb_refl.
    rewrite (execute_skill_getAction_outputs _ _ _ Hs). cbn [app map].
    rewrite A, LP, VA, RW. cbn [actions log_probs values rewards].
    rewrite <- !app_assoc. cbn [app].
    repeat (split; [reflexivity|]).
    split; [exact SC|].
    cbn [step_results]. rewrite step_results_app, S1.
    rewrite length_app. split; [rewrite length_app in *; simpl in *; lia|].
    intros _. destruct n as [|n'].
    + exists pre, lst. simpl in R. injection R as <- _ _.
      simpl. rewrite app_nil_r. split; [reflexivity|exact N1].
    + destruct LS as (pre' & lst' & S' & N'); [lia|].
      exists ((pre ++ [lst]) ++ pre'), lst'. rewrite S'.
      rewrite <- !app_assoc. split; [reflexivity|exact N'].
Qed.

Lemma reset_count_app (e1 e2 : list (event Info Tensor)) :
  reset_count (e1 ++ e2) = (reset_count e1 + reset_count e2)%nat.
Proof.
  induction e1 as [|e e1 IH]; [reflexivity|].
  destruct e; simpl; rewrite IH; reflexivity.
Qed.

Lemma score_appends_app (e1 e2 : list (event Info Tensor)) :
  score_appends (e1 ++ e2) = score_appends e1 ++ score_appends e2.
Proof.
  induction e1 as [|e e1 IH]; [reflexivity|].
  destruct e; simpl; now rewrite IH.
Qed.

Lemma steps_adds_app (e1 e2 : list (event Info Tensor)) :
  steps_adds (e1 ++ e2) = steps_adds e1 ++ steps_adds e2.
Proof.
  induction e1 as [|e e1 IH]; [reflexivity|].
  destruct e; simpl; now rewrite IH.
Qed.

(** An episode of a selector whose actions are keys, in full. *)
Lemma run_episode_ledger (i : nat) (l : locals) (total : nat) (w : World) :
  (forall s w',
      valid_action (action (fst (getAction (pop_member i) s w'))) = true) ->
  exists l' score b nxt loop_evs pre lst,
    let ex := Experiences (states b) (actions b) (log_probs b) (rewards b)
                (terminations b) (values b) nxt in
    result (run_episode (pop_member i) (l, total) w)
    = Ok (l', (total + 500)%nat) /\
    events (run_episode (pop_member i) (l, total) w)
    = EvReset :: loop_evs
        ++ [EvScoresAppend (pop_member i) score; EvLearn (pop_member i) ex;
            EvStepsAdd (pop_member i) 500] /\
    Forall acts_only loop_evs /\
    all_lengths b 500 /\
    actions b = map action (getAction_outputs (pop_member i) loop_evs) /\
    log_probs b
    = map log_prob (getAction_outputs (pop_member i) loop_evs) /\
    values b = map value (getAction_outputs (pop_member i) loop_evs) /\
    score = fold_left Qplus (rewards b) 0 /\
    (500 <= length (step_results loop_evs) <= 40 * 500)%nat /\
    step_results loop_evs = pre ++ [lst] /\
    nxt = vs_next_state lst.
Proof.
  intros V.
  pose proof (run_episode_cases (pop_member i) l total w) as C.
  cbv zeta in C. remember 500%nat as n eqn:Hn.
  match type of C with
  | context [for_range n _ (?l0, ?sc, ?b0) ?w0] =>
      destruct (selector_loop_ledger i n V l0 sc b0 w0)
        as (l' & score & b & rs & H);
      destruct (selector_loop_run i n V l0 sc b0 w0 0%nat)
        as (l2 & score2 & b2 & R2 & AL & _); [repeat split|];
      pose proof (emits_for_range acts_only n
                    (selector_step (pop_member i))
                    (selector_step_acts_only (pop_member i))
                    (l0, sc, b0) w0) as Q
  end.
  cbv zeta in H.
  destruct H as (R & A & LP & VA & RW & SC & B & LS).
  rewrite R in R2. injection R2 as <- <- <-.
  destruct LS as (pre & lst & S' & N); [subst n; lia|].
  rewrite R, N in C.
  exists l', score, b, (vs_next_state lst).
  eexists _, pre, lst. cbv zeta. rewrite C. cbn [result events].
  split; [reflexivity|]. split; [reflexivity|].
  split; [exact Q|]. split; [exact AL|].
  cbn [actions log_probs values rewards empty_buffers app] in A, LP, VA, RW.
  repeat (split; [assumption|]).
  split; [now rewrite RW|].
  split; [subst n; lia|]. split; [exact S'|reflexivity].
Qed.

(** X8.  A selector pass whose action is no key of [trained_skills] raises
    [KeyError] right after the selector's [getAction]: the environment is
    not stepped, no skill agent is asked, and nothing is recorded. *)
Theorem stray_action_raises_KeyError
    (sel : agent_ref) (l : locals) (score : Q) (b : buffers Tensor)
    (w : World) :
  valid_action (action (fst (getAction sel (state l) w))) = false ->
  let o := selector_step sel (l, score, b) w in
  result o = Raise KeyError /\
  world o = snd (getAction sel (state l) w) /\
  events o = [EvGetAction sel (state l) (fst (getAction sel (state l) w))].
Proof.
  intros V. cbv zeta. rewrite (selector_step_stray sel l score b w V).
  repeat split.
Qed.

(** X9.  An episode that raises raises [KeyError], and it has made no
    [learn], no [scores.append] and no [steps] update: a failed episode
    leaves the selector as it was. *)
Theorem failed_episode_never_learns
    (sel : agent_ref) (v : locals * nat) (w : World) (e : exn) :
  result (run_episode sel v w) = Raise e ->
  e = KeyError /\
  learn_calls (events (run_episode sel v w)) = [] /\
  score_appends (events (run_episode sel v w)) = [] /\
  steps_adds (events (run_episode sel v w)) = [].
Proof.
  destruct v as [l total]. intros R.
  pose proof (run_episode_cases sel l total w) as C. cbv zeta in C.
  remember 500%nat as n eqn:Hn.
  match type of C with
  | context [for_range n _ (?l0, ?sc, ?b0) ?w0] =>
      pose proof (selector_loop_raises_KeyError sel n (l0, sc, b0) w0) as K;
      pose proof (selector_loop_quiet sel n (l0, sc, b0) w0) as Q;
      destruct (result (for_range n (selector_step sel) (l0, sc, b0) w0))
        as [[[l' score] b]|e0] eqn:RL
  end.
  - pose proof (selector_loop_binds_next_state sel n _ _ _ _ _ _ _ RL) as N.
    destruct (next_state l') as [nxt|].
    + rewrite C in R. discriminate.
    + exfalso. apply N; [left; subst n; lia|reflexivity].
  - cbv zeta in Q. destruct Q as (Q1 & Q2 & Q3 & _).
    rewrite C in R |- *. cbn [result events] in R |- *.
    injection R as <-. cbn [learn_calls score_appends steps_adds].
    repeat split; try assumption. now apply K.
Qed.

(** X10.  The flag appended to [terminations] by a selector pass is the
    [termination] of the last environment step of its skill run; the
    [truncation] of that step is not recorded. *)
Theorem recorded_termination_is_last_step_flag
    (sel : agent_ref) (l : locals) (score : Q) (b : buffers Tensor)
    (w : World) :
  valid_action (action (fst (getAction sel (state l) w))) = true ->
  let o := selector_step sel (l, score, b) w in
  exists pre lst l' score' b',
    step_results (events o) = pre ++ [lst] /\
    result o = Ok (l', score', b') /\
    terminations b' = terminations b ++ [vs_termination lst].
Proof.
  intros V.
  destruct (selector_step_ledger sel l score b w V)
    as (out & w1 & entry & l' & pre & lst & G & D & H).
  cbv zeta in H. destruct H as (S1 & _ & _ & _ & E).
  cbv zeta. rewrite E. cbn [result events step_results].
  eexists pre, lst, _, _, _. split; [exact S1|]. split; reflexivity.
Qed.

(** X11.  When the skill run of a selector pass ends on a terminated or
    truncated step, [state] is left at the observation that step was taken
    from, not at the observation the step returned: that stale state is
    what the pass appends to [states] and what the next pass starts from.
    Otherwise [state] is the observation of the last step. *)
Theorem state_is_stale_after_terminal_step
    (sel : agent_ref) (l : locals) (score : Q) (b : buffers Tensor)
    (w : World) :
  valid_action (action (fst (getAction sel (state l) w))) = true ->
  let o := selector_step sel (l, score, b) w in
  exists pre lst l' score' b',
    step_results (events o) = pre ++ [lst] /\
    result o = Ok (l', score', b') /\
    state l'
    = (if terminal lst then last (map vs_next_state pre) (state l)
       else vs_next_state lst) /\
    states b' = states b ++ [state l'] /\
    next_state l' = Some (vs_next_state lst).
Proof.
  intros V.
  destruct (selector_step_ledger sel l score b w V)
    as (out & w1 & entry & l' & pre & lst & G & D & H).
  cbv zeta in H. destruct H as (S1 & _ & F1 & F2 & E).
  cbv zeta. rewrite E. cbn [result events step_results].
  eexists pre, lst, l', _, _. split; [exact S1|].
  split; [reflexivity|]. split; [exact F1|]. split; [reflexivity|exact F2].
Qed.

(** X12.  An episode of a selector whose actions are keys steps the
    environment at least 500 and at most 40 * 500 times, but the step
    counter [agent.steps] is advanced by exactly 500 whatever that number
    was: it counts selector passes, not environment steps. *)
Theorem episode_counts_passes_not_steps
    (i : nat) (v : locals * nat) (w : World) :
  (forall s w',
      valid_action (action (fst (getAction (pop_member i) s w'))) = true) ->
  let evs := events (run_episode (pop_member i) v w) in
  (500 <= length (step_results evs) <= 40 * 500)%nat /\
  steps_adds evs = [(pop_member i, 500%nat)].
Proof.
  intros V. destruct v as [l total].
  destruct (run_episode_ledger i l total w V)
    as (l' & score & b & nxt & loop_evs & pre & lst & H).
  cbv zeta in H.
  destruct H as (_ & E & Q & _ & _ & _ & _ & _ & B & _ & _).
  destruct (acts_only_quiet _ Q) as (_ & _ & Q3 & _).
  cbv zeta. rewrite E. cbn [step_results steps_adds].
  rewrite step_results_app, steps_adds_app, Q3. cbn [step_results steps_adds].
  rewrite app_nil_r. split; [exact B|reflexivity].
Qed.

(** X13.  Every episode, whether it completes or raises, resets the
    environment exactly once, as its first call: the loop never resets the
    environment after a terminated or truncated step. *)
Theorem episode_resets_once_at_its_start
    (sel : agent_ref) (v : locals * nat) (w : World) :
  reset_count (events (run_episode sel v w)) = 1%nat /\
  exists rest, events (run_episode sel v w) = EvReset :: rest.
Proof.
  destruct v as [l total].
  pose proof (run_episode_cases sel l total w) as C. cbv zeta in C.
  remember 500%nat as n eqn:Hn.
  match type of C with
  | context [for_range n _ (?l0, ?sc, ?b0) ?w0] =>
      pose proof (selector_loop_quiet sel n (l0, sc, b0) w0) as Q;
      destruct (result (for_range n (selector_step sel) (l0, sc, b0) w0))
        as [[[l' score] b]|e0]
  end; cbv zeta in Q; destruct Q as (_ & _ & _ & Q4).
  - destruct (next_state l') as [nxt|]; rewrite C; cbn [events reset_count];
      rewrite reset_count_app, Q4; (split; [reflexivity|eauto]).
  - rewrite C. cbn [events reset_count]. rewrite Q4. split; eauto.
Qed.

(** X14.  The score that a completed episode appends to [agent.scores] is
    the sum, from 0 and in order, of the 500 rewards it hands to [learn]. *)
Theorem episode_score_is_sum_of_rewards
    (i : nat) (v : locals * nat) (w : World) :
  (forall s w',
      valid_action (action (fst (getAction (pop_member i) s w'))) = true) ->
  let evs := events (run_episode (pop_member i) v w) in
  exists ex,
    learn_calls evs = [(pop_member i, ex)] /\
    score_appends evs
    = [(pop_member i, fold_left Qplus (ex_rewards ex) 0)].
Proof.
  intros V. destruct v as [l total].
  destruct (run_episode_ledger i l total w V)
    as (l' & score & b & nxt & loop_evs & pre & lst & H).
  cbv zeta in H.
  destruct H as (_ & E & Q & _ & _ & _ & _ & SC & _ & _ & _).
  destruct (acts_only_quiet _ Q) as (Q1 & Q2 & _ & _).
  cbv zeta. rewrite E. cbn [learn_calls score_appends].
  rewrite learn_calls_app, score_appends_app, Q1, Q2.
  cbn [learn_calls score_appends app].
  eexists. split; [reflexivity|]. cbn [ex_rewards]. now rewrite SC.
Qed.

(** X15.  The actions, log-probabilities and values that a completed
    episode hands to [learn] are those the selector's [getAction] returned,
    pass by pass and in order, and the [next_state] it hands over is the
    observation returned by the last environment step of the episode. *)
Theorem learn_gets_what_the_selector_returned
    (i : nat) (v : locals * nat) (w : World) :
  (forall s w',
      valid_action (action (fst (getAction (pop_member i) s w'))) = true) ->
  let evs := events (run_episode (pop_member i) v w) in
  let outs := getAction_outputs (pop_member i) evs in
  exists ex pre lst,
    learn_calls evs = [(pop_member i, ex)] /\
    ex_actions ex = map action outs /\
    ex_log_probs ex = map log_prob outs /\
    ex_values ex = map value outs /\
    step_results evs = pre ++ [lst] /\
    ex_next_state ex = vs_next_state lst.
Proof.
  intros V. destruct v as [l total].
  destruct (run_episode_ledger i l total w V)
    as (l' & score & b & nxt & loop_evs & pre & lst & H).
  cbv zeta in H.
  destruct H as (_ & E & Q & _ & A & LP & VA & _ & _ & S' & N).
  destruct (acts_only_quiet _ Q) as (Q1 & _ & _ & _).
  cbv zeta. rewrite E. cbn [learn_calls getAction_outputs step_results].
  rewrite learn_calls_app, getAction_outputs_app, step_results_app, Q1.
  cbn [learn_calls getAction_outputs step_results app].
  rewrite !app_nil_r.
  eexists _, pre, lst. split; [reflexivity|].
  cbn [ex_actions ex_log_probs ex_values ex_next_state].
  repeat (split; [assumption|]). exact N.
Qed.

(** The body of [for agent in pop], for the one agent of [pop]. *)
Lemma for_each_pop (v : locals * nat) (w : World) :
  let o := run_episode (pop_member 0) v w in
  for_each pop run_episode v w
  = match result o with
    | Ok v' => Outcome (Ok v') (world o) (events o)
    | Raise e => Outcome (Raise e) (world o) (events o)
    end.
Proof.
  unfold pop, POPULATION_SIZE. cbn [seq map for_each]. unfold bind, ret.
  cbv zeta. destruct (result (run_episode (pop_member 0) v w));
    cbn [result world events]; [now rewrite app_nil_r|reflexivity].
Qed.

(** One pass of [for agent in pop] when the selector's actions are keys. *)
Lemma for_each_pop_ledger (l : locals) (total : nat) (w : World) :
  (forall s w',
      valid_action (action (fst (getAction (pop_member 0) s w'))) = true) ->
  exists l' ex,
    let o := for_each pop run_episode (l, total) w in
    result o = Ok (l', (total + 500)%nat) /\
    learn_calls (events o) = [(pop_member 0, ex)] /\
    experience_lengths ex 500 /\
    reset_count (events o) = 1%nat /\
    (500 <= length (step_results (events o)) <= 40 * 500)%nat.
Proof.
  intros V.
  destruct (run_episode_ledger 0 l total w V)
    as (l' & score & b & nxt & loop_evs & pre & lst & H).
  cbv zeta in H.
  destruct H as (R & E & Q & AL & _ & _ & _ & _ & B & _ & _).
  destruct (acts_only_quiet _ Q) as (Q1 & _ & _ & Q4).
  pose proof (for_each_pop (l, total) w) as F. cbv zeta in F.
  rewrite R in F. eexists l', _. cbv zeta. rewrite F.
  cbn [result events]. rewrite E.
  cbn [learn_calls reset_count step_results].
  rewrite learn_calls_app, reset_count_app, step_results_app, Q1, Q4.
  cbn [learn_calls reset_count step_results app]. rewrite app_nil_r.
  repeat split; try apply AL; try apply B.
Qed.

(** X16.  With a selector whose actions are keys, the training loop runs
    all its episodes: after [episodes] episodes [total_steps] has grown by
    500 per episode, the environment has been reset once per episode,
    [learn] has been called once per episode, always on the selector
    [pop[0]] and with lists of 500 entries, and the environment has been
    stepped between 500 and 40 * 500 times per episode. *)
Theorem training_loop_runs_every_episode
    (episodes : nat) (l : locals) (total : nat) (w : World) :
  (forall s w',
      valid_action (action (fst (getAction (pop_member 0) s w'))) = true) ->
  let o := training_loop episodes (l, total) w in
  (exists l', result o = Ok (l', (total + 500 * episodes)%nat)) /\
  reset_count (events o) = episodes /\
  length (learn_calls (events o)) = episodes /\
  Forall (fun c => fst c = pop_member 0 /\ experience_lengths (snd c) 500)
         (learn_calls (events o)) /\
  (500 * episodes <= length (step_results (events o))
   <= 40 * 500 * episodes)%nat.
Proof.
  intros V. cbv zeta. unfold training_loop.
  revert l total w. induction episodes as [|n IH]; intros l total w.
  - simpl. rewrite Nat.add_0_r. repeat split; eauto.
  - change (for_range (S n) (for_each pop run_episode) (l, total) w)
      with (bind (for_each pop run_episode (l, total))
                 (for_range n (for_each pop run_episode)) w).
    destruct (for_each_pop_ledger l total w V) as (l1 & ex & H).
    cbv zeta in H. destruct H as (R & LC & EL & RC & B).
    unfold bind. rewrite R. cbn [result world events].
    destruct (IH l1 (total + 500)%nat
                (world (for_each pop run_episode (l, total) w)))
      as ((l' & R') & RC' & LN' & FA' & B').
    rewrite R'.
    rewrite reset_count_app, learn_calls_app, step_results_app, !length_app.
    rewrite RC, RC', LC, LN'.
    split; [exists l'; f_equal; f_equal; lia|].
    split; [reflexivity|]. split; [reflexivity|].
    split; [|lia].
    constructor; [split; [reflexivity|exact EL]|exact FA'].
Qed.

(** The values logged while the episodes [a, a + n) run. *)
Lemma logged_loop_ledger (n : nat) :
  (forall s w',
      valid_action (action (fst (getAction (pop_member 0) s w'))) = true) ->
  forall (a : nat) (l : locals) (total : nat) (logged : list nat)
         (w : World),
  exists l',
    result (for_each (seq a n) epoch (l, total, logged) w)
    = Ok (l', (total + 500 * n)%nat,
          logged
            ++ map (fun idx => (total + 500 * (idx + 1 - a))%nat)
                 (filter (fun idx => ((idx + 1) mod EVO_EPOCHS =? 0)%nat)
                    (seq a n))).
Proof.
  intros V. induction n as [|n IH]; intros a l total logged w.
  - exists l. simpl. now rewrite Nat.add_0_r, app_nil_r.
  - cbn [seq for_each]. unfold bind at 1. unfold epoch at 1.
    unfold bind at 1.
    destruct (for_each_pop_ledger l total w V) as (l1 & ex & H).
    cbv zeta in H. destruct H as (R & _). rewrite R.
    cbn [result world events snd].
    destruct ((a + 1) mod EVO_EPOCHS =? 0)%nat eqn:T;
      unfold ret at 1; cbn [result world events].
    + match goal with
      | |- context [for_each (seq (S a) n) epoch (l1, ?t, ?lg) ?w1] =>
          destruct (IH (S a) l1 t lg w1) as (l' & R')
      end.
      exists l'. rewrite R'. cbn [filter]. rewrite T. cbn [map].
      rewrite <- app_assoc. cbn [app].
      f_equal. f_equal; [f_equal; lia|]. f_equal.
      f_equal; [lia|]. apply map_ext_in. intros idx Hin.
      apply filter_In in Hin. destruct Hin as [Hin _].
      apply in_seq in Hin. lia.
    + match goal with
      | |- context [for_each (seq (S a) n) epoch (l1, ?t, ?lg) ?w1] =>
          destruct (IH (S a) l1 t lg w1) as (l' & R')
      end.
      exists l'. rewrite R'. cbn [filter]. rewrite T.
      f_equal. f_equal; [f_equal; lia|]. f_equal.
      apply map_ext_in. intros idx Hin.
      apply filter_In in Hin. destruct Hin as [Hin _].
      apply in_seq in Hin. lia.
Qed.

(** X17.  With a selector whose actions are keys, the values logged as
    ["global_step"] are 500 * (idx_epi + 1) above the starting
    [total_steps], for exactly the episodes whose number idx_epi + 1 is a
    multiple of [EVO_EPOCHS] = 5, in order: the logged step axis counts
    selector passes, 500 an episode. *)
Theorem logged_global_steps
    (episodes : nat) (l : locals) (total : nat) (logged : list nat)
    (w : World) :
  (forall s w',
      valid_action (action (fst (getAction (pop_member 0) s w'))) = true) ->
  exists l',
    result (logged_training_loop episodes (l, total, logged) w)
    = Ok (l', (total + 500 * episodes)%nat,
          logged
            ++ map (fun idx => (total + 500 * (idx + 1))%nat)
                 (filter (fun idx => ((idx + 1) mod EVO_EPOCHS =? 0)%nat)
                    (seq 0 episodes))).
Proof.
  intros V. unfold logged_training_loop.
  destruct (logged_loop_ledger episodes V 0 l total logged w) as (l' & R).
  exists l'. rewrite R. f_equal. f_equal. f_equal.
  apply map_ext. intros idx. f_equal. f_equal. lia.
Qed.

End LoopExtras.

Transparent trained_skills.

(** * The further properties at the sample inputs *)

Lemma shaped_reward_peaks_when_still_witness :
  truthy (PyBool false) || truthy (PyBool false) = false /\
  (length (StabilizeSkill.x (StabilizeSkill.history sample_stabilize))
   < 300)%nat /\
  last_item (StabilizeSkill.x (StabilizeSkill.history sample_stabilize))
    = Ok 0 /\
  last_item (StabilizeSkill.y (StabilizeSkill.history sample_stabilize))
    = Ok 1 /\
  last_item (StabilizeSkill.theta (StabilizeSkill.history sample_stabilize))
    = Ok 0 /\
  (length (CenterSkill.y (CenterSkill.history sample_center)) < 300)%nat /\
  last_item (CenterSkill.y (CenterSkill.history sample_center)) = Ok 1 /\
  last_item (CenterSkill.theta (CenterSkill.history sample_center)) = Ok 0 /\
  (exists rw,
      fst (StabilizeSkill.skill_reward S sample_stabilize still_observation
             (7 # 1) (PyBool false) (PyBool false) tt)
      = Ok (StepResult still_observation rw (PyInt 0) (PyInt 0) tt) /\
      rw <= 1 /\
      (0 == ob0 still_observation -> 1 == ob1 still_observation ->
       0 == ob4 still_observation -> rw == 1)) /\
  (exists rw,
      fst (CenterSkill.skill_reward S sample_center still_observation
             (7 # 1) (PyBool false) (PyBool false) tt)
      = Ok (StepResult still_observation rw (PyInt 0) (PyInt 0) tt) /\
      rw <= 1 /\
      (CenterSkill.x_center sample_center == ob0 still_observation ->
       1 == ob1 still_observation -> 0 == ob4 still_observation ->
       rw == 1)).
Proof.
  repeat (split; [first [reflexivity | simpl; lia]|]).
  apply (shaped_reward_peaks_when_still nat unit S sample_stabilize
           sample_center still_observation (7 # 1) (PyBool false)
           (PyBool false) tt 0 1 0 1 0);
    first [reflexivity | simpl; lia].
Defined.

Example still_step_is_paid_one :
  sr_reward_of
    (fst (StabilizeSkill.skill_reward S sample_stabilize still_observation
            (7 # 1) (PyBool false) (PyBool false) tt)) == 1 /\
  sr_reward_of
    (fst (CenterSkill.skill_reward S sample_center still_observation
            (7 # 1) (PyBool false) (PyBool false) tt)) == 1 /\
  sr_reward_of
    (fst (LandingSkill.skill_reward (LandingSkill.init 0%nat)
            pad_observation (7 # 1) (PyBool false) (PyBool false) tt)) == 1.
Proof. repeat split. Qed.

Lemma landing_reward_peaks_on_the_pad_witness :
  truthy (PyBool false) || truthy (PyBool false) = false /\
  exists rw,
    fst (LandingSkill.skill_reward (LandingSkill.init 0%nat)
           pad_observation (7 # 1) (PyBool false) (PyBool false) tt)
    = Ok (StepResult pad_observation rw (PyInt 0) (PyInt 0) tt) /\
    rw <= 1 /\
    (ob0 pad_observation == 0 -> ob1 pad_observation == 0 ->
     ob4 pad_observation == 0 -> rw == 1).
Proof.
  split; [reflexivity|].
  apply (landing_reward_peaks_on_the_pad nat unit 0%nat pad_observation
           (7 # 1) (PyBool false) (PyBool false) tt).
  reflexivity.
Defined.

Lemma reward_compares_consecutive_observations_witness :
  stabilize_consistent sample_stabilize /\
  center_consistent sample_center /\
  nonterminal sample_call = true /\
  nonterminal moved_call = true /\
  (length (StabilizeSkill.x (StabilizeSkill.history sample_stabilize))
   <= 298)%nat /\
  (length (CenterSkill.y (CenterSkill.history sample_center)) <= 298)%nat /\
  (exists rw,
      fst (stabilize_call S (snd (stabilize_call S sample_stabilize
                                    sample_call)) moved_call)
      = Ok (StepResult moved_observation rw (PyInt 0) (PyInt 0) tt) /\
      rw == 1
            - (10 * Qabs (ob0 sample_observation - ob0 moved_observation)) ^ 2
            - (10 * Qabs (ob1 sample_observation - ob1 moved_observation)) ^ 2
            - (10 * Qabs (ob4 sample_observation - ob4 moved_observation)) ^ 2)
  /\
  (exists rw,
      fst (center_call S (snd (center_call S sample_center sample_call))
             moved_call)
      = Ok (StepResult moved_observation rw (PyInt 0) (PyInt 0) tt) /\
      rw == 1
            - (2 * Qabs (CenterSkill.x_center sample_center
                         - ob0 moved_observation)) ^ 2
            - (10 * Qabs (ob1 sample_observation - ob1 moved_observation)) ^ 2
            - (10 * Qabs (ob4 sample_observation - ob4 moved_observation)) ^ 2).
Proof.
  assert (Hs : stabilize_consistent sample_stabilize) by (split; reflexivity).
  assert (Hc : center_consistent sample_center) by reflexivity.
  split; [exact Hs|]. split; [exact Hc|].
  split; [reflexivity|]. split; [reflexivity|].
  split; [simpl; lia|]. split; [simpl; lia|].
  apply (reward_compares_consecutive_observations nat unit S sample_stabilize
           sample_center sample_call moved_call Hs Hc);
    first [reflexivity | simpl; lia].
Defined.

Lemma terminal_step_restarts_the_comparison_witness :
  nonterminal terminal_call = false /\
  nonterminal moved_call = true /\
  stabilize_call S (snd (stabilize_call S sample_stabilize terminal_call))
    moved_call
  = (Ok (StepResult moved_observation 1 (PyInt 0) (PyInt 0) tt),
     StabilizeSkill.mkSelf 0%nat 0
       (StabilizeSkill.mkHistory [3 # 5] [7 # 5] [1 # 5])) /\
  center_call S (snd (center_call S sample_center terminal_call)) moved_call
  = (Ok (StepResult moved_observation 1 (PyInt 0) (PyInt 0) tt),
     CenterSkill.mkSelf 0%nat 0 (CenterSkill.mkHistory [7 # 5] [1 # 5])).
Proof.
  split; [reflexivity|]. split; [reflexivity|].
  apply (terminal_step_restarts_the_comparison nat unit S sample_stabilize
           sample_center terminal_call moved_call); reflexivity.
Defined.

Lemma uninterrupted_run_is_cut_every_301_steps_witness :
  forallb nonterminal long_run = true /\
  StabilizeSkill.env
    (calls (stabilize_call S) (StabilizeSkill.init 0%nat) long_run)
  = Nat.iter (length long_run / 301) S 0%nat /\
  length (StabilizeSkill.x
            (StabilizeSkill.history
               (calls (stabilize_call S) (StabilizeSkill.init 0%nat)
                  long_run)))
  = (length long_run mod 301)%nat /\
  CenterSkill.env (calls (center_call S) (CenterSkill.init 0%nat) long_run)
  = Nat.iter (length long_run / 301) S 0%nat /\
  length (CenterSkill.y
            (CenterSkill.history
               (calls (center_call S) (CenterSkill.init 0%nat) long_run)))
  = (length long_run mod 301)%nat.
Proof.
  assert (H : forallb nonterminal long_run = true)
    by (vm_compute; reflexivity).
  split; [exact H|].
  exact (uninterrupted_run_is_cut_every_301_steps nat unit S 0%nat
           long_run H).
Defined.

Example long_run_is_reset_twice :
  StabilizeSkill.env
    (calls (stabilize_call S) (StabilizeSkill.init 0%nat) long_run) = 2%nat /\
  length (StabilizeSkill.x
            (StabilizeSkill.history
               (calls (stabilize_call S) (StabilizeSkill.init 0%nat)
                  long_run))) = 98%nat.
Proof. vm_compute. split; reflexivity. Qed.

Lemma stray_action_raises_KeyError_witness :
  valid_action
    (action (fst (getAction (Externals := stray_world) (pop_member 0)
                    (state sample_locals) 0%nat))) = false /\
  let o := selector_step (Ext := stray_world) (pop_member 0)
             (sample_locals, 0, empty_buffers) 0%nat in
  result o = Raise KeyError /\
  world o = snd (getAction (Externals := stray_world) (pop_member 0)
                   (state sample_locals) 0%nat) /\
  events o
  = [EvGetAction (pop_member 0) (state sample_locals)
       (fst (getAction (Externals := stray_world) (pop_member 0)
               (state sample_locals) 0%nat))].
Proof.
  split; [reflexivity|].
  apply (stray_action_raises_KeyError (Ext := stray_world)).
  reflexivity.
Defined.

Lemma failed_episode_never_learns_witness :
  result (run_episode (Ext := stray_world) (pop_member 0)
            (sample_locals, 0%nat) 0%nat) = Raise KeyError /\
  KeyError = KeyError /\
  learn_calls (events (run_episode (Ext := stray_world) (pop_member 0)
                         (sample_locals, 0%nat) 0%nat)) = [] /\
  score_appends (events (run_episode (Ext := stray_world) (pop_member 0)
                           (sample_locals, 0%nat) 0%nat)) = [] /\
  steps_adds (events (run_episode (Ext := stray_world) (pop_member 0)
                        (sample_locals, 0%nat) 0%nat)) = [].
Proof.
  assert (H : result (run_episode (Ext := stray_world) (pop_member 0)
                        (sample_locals, 0%nat) 0%nat) = Raise KeyError)
    by (vm_compute; reflexivity).
  split; [exact H|].
  exact (failed_episode_never_learns (Ext := stray_world) (pop_member 0)
           (sample_locals, 0%nat) 0%nat KeyError H).
Defined.

Lemma recorded_termination_is_last_step_flag_witness :
  valid_action
    (action (fst (getAction (Externals := sample_world) (pop_member 0)
                    (state sample_locals) 0%nat))) = true /\
  let o := selector_step (Ext := sample_world) (pop_member 0)
             (sample_locals, 0, empty_buffers) 0%nat in
  exists pre lst l' score' b',
    step_results (events o) = pre ++ [lst] /\
    result o = Ok (l', score', b') /\
    terminations b'
    = terminations (Tensor := unit) empty_buffers ++ [vs_termination lst].
Proof.
  split; [reflexivity|].
  apply (recorded_termination_is_last_step_flag (Ext := sample_world)).
  reflexivity.
Defined.

Lemma state_is_stale_after_terminal_step_witness :
  valid_action
    (action (fst (getAction (Externals := sample_world) (pop_member 0)
                    (state sample_locals) 0%nat))) = true /\
  let o := selector_step (Ext := sample_world) (pop_member 0)
             (sample_locals, 0, empty_buffers) 0%nat in
  exists pre lst l' score' b',
    step_results (events o) = pre ++ [lst] /\
    result o = Ok (l', score', b') /\
    state l'
    = (if terminal lst
       then last (map vs_next_state pre) (state sample_locals)
       else vs_next_state lst) /\
    states b' = states (Tensor := unit) empty_buffers ++ [state l'] /\
    next_state l' = Some (vs_next_state lst).
Proof.
  split; [reflexivity|].
  apply (state_is_stale_after_terminal_step (Ext := sample_world)).
  reflexivity.
Defined.

Lemma episode_counts_passes_not_steps_witness :
  (forall s w',
      valid_action
        (action (fst (getAction (Externals := sample_world) (pop_member 0)
                        s w'))) = true) /\
  let evs := events (run_episode (Ext := sample_world) (pop_member 0)
                       (sample_locals, 0%nat) 0%nat) in
  (500 <= length (step_results evs) <= 40 * 500)%nat /\
  steps_adds evs = [(pop_member 0, 500%nat)].
Proof.
  split; [intros s w'; reflexivity|].
  apply (episode_counts_passes_not_steps (Ext := sample_world) 0
           (sample_locals, 0%nat) 0%nat).
  intros s w'. reflexivity.
Defined.

Lemma episode_score_is_sum_of_rewards_witness :
  (forall s w',
      valid_action
        (action (fst (getAction (Externals := sample_world) (pop_member 0)
                        s w'))) = true) /\
  let evs := events (run_episode (Ext := sample_world) (pop_member 0)
                       (sample_locals, 0%nat) 0%nat) in
  exists ex,
    learn_calls evs = [(pop_member 0, ex)] /\
    score_appends evs
    = [(pop_member 0, fold_left Qplus (ex_rewards ex) 0)].
Proof.
  split; [intros s w'; reflexivity|].
  apply (episode_score_is_sum_of_rewards (Ext := sample_world) 0
           (sample_locals, 0%nat) 0%nat).
  intros s w'. reflexivity.
Defined.

Lemma learn_gets_what_the_selector_returned_witness :
  (forall s w',
      valid_action
        (action (fst (getAction (Externals := sample_world) (pop_member 0)
                        s w'))) = true) /\
  let evs := events (run_episode (Ext := sample_world) (pop_member 0)
                       (sample_locals, 0%nat) 0%nat) in
  let outs := getAction_outputs (pop_member 0) evs in
  exists ex pre lst,
    learn_calls evs = [(pop_member 0, ex)] /\
    ex_actions ex = map action outs /\
    ex_log_probs ex = map log_prob outs /\
    ex_values ex = map value outs /\
    step_results evs = pre ++ [lst] /\
    ex_next_state ex = vs_next_state lst.
Proof.
  split; [intros s w'; reflexivity|].
  apply (learn_gets_what_the_selector_returned (Ext := sample_world) 0
           (sample_locals, 0%nat) 0%nat).
  intros s w'. reflexivity.
Defined.

Lemma training_loop_runs_every_episode_witness :
  (forall s w',
      valid_action
        (action (fst (getAction (Externals := sample_world) (pop_member 0)
                        s w'))) = true) /\
  let o := training_loop (Ext := sample_world) EPISODES
             (sample_locals, 0%nat) 0%nat in
  (exists l', result o = Ok (l', (0 + 500 * EPISODES)%nat)) /\
  reset_count (events o) = EPISODES /\
  length (learn_calls (events o)) = EPISODES /\
  Forall (fun c => fst c = pop_member 0 /\ experience_lengths (snd c) 500)
         (learn_calls (events o)) /\
  (500 * EPISODES <= length (step_results (events o))
   <= 40 * 500 * EPISODES)%nat.
Proof.
  split; [intros s w'; reflexivity|].
  apply (training_loop_runs_every_episode (Ext := sample_world) EPISODES
           sample_locals 0%nat 0%nat).
  intros s w'. reflexivity.
Defined.

Lemma logged_global_steps_witness :
  (forall s w',
      valid_action
        (action (fst (getAction (Externals := sample_world) (pop_member 0)
                        s w'))) = true) /\
  exists l',
    result (logged_training_loop (Ext := sample_world) 10
              (sample_locals, 0%nat, []) 0%nat)
    = Ok (l', (0 + 500 * 10)%nat,
          [] ++ map (fun idx => (0 + 500 * (idx + 1))%nat)
                  (filter (fun idx => ((idx + 1) mod EVO_EPOCHS =? 0)%nat)
                     (seq 0 10))).
Proof.
  split; [intros s w'; reflexivity|].
  apply (logged_global_steps (Ext := sample_world) 10 sample_locals 0%nat
           [] 0%nat).
  intros s w'. reflexivity.
Defined.
